(** * Shallow embedding of [atlassian-server.py]

    The server is integration glue between an issue tracker (Jira) and a wiki
    (Confluence).  The embedding follows the source function by function:

    - parsed JSON is a Python value ([value]); dictionaries are association
      lists in insertion order, looked up by their first matching key;
    - a Python exception is a constructor of [exn]; code that may raise
      returns a [result];
    - code that talks to the network runs in the [io] monad, which threads the
      log of requests sent so far and asks the remote services (a function of
      that log and of the request) for the outcome of every call. *)

From Stdlib Require Import String Ascii List ZArith Bool Lia DecimalString.
From Stdlib Require Import Floats.PrimFloat.
Import ListNotations.
Open Scope string_scope.

#[local] Set Warnings "-register-all".

(* ====================================================================== *)
(** * Python values *)
(* ====================================================================== *)

(** What [response.json()] can produce. *)
Inductive value : Type :=
| PNone
| PBool (b : bool)
| PInt (z : Z)
| PFloat (f : float)
| PStr (s : string)
| PList (l : list value)
| PDict (d : list (string * value)).

Definition dict := list (string * value).

(** Exceptions the modelled code can meet.  All of them derive from Python's
    [Exception]. *)
Inductive exn : Type :=
| AttributeError (obj : value) (attr : string)
| KeyError (key : value)
| IndexError
| TypeError (culprit : value)
| ValueError (msg : string)
| HTTPStatusError (status_code : Z)
| RequestError
| JSONDecodeError.

Inductive result (A : Type) : Type :=
| Ok (a : A)
| Raise (e : exn).
Arguments Ok {A} a.
Arguments Raise {A} e.

Definition rbind {A B} (r : result A) (k : A -> result B) : result B :=
  match r with
  | Ok a => k a
  | Raise e => Raise e
  end.

Notation "'let?' x ':=' r 'in' k" := (rbind r (fun x => k))
  (at level 10, x name, r at level 100, k at level 200).

(** [bool(v)]. *)
Definition truthy (v : value) : bool :=
  match v with
  | PNone => false
  | PBool b => b
  | PInt z => negb (z =? 0)%Z
  | PFloat f => negb (PrimFloat.eqb f 0%float)
  | PStr s => negb (s =? "")
  | PList l => match l with [] => false | _ => true end
  | PDict d => match d with [] => false | _ => true end
  end.

Fixpoint assoc (k : string) (d : dict) : option value :=
  match d with
  | [] => None
  | (k', v) :: rest => if k' =? k then Some v else assoc k rest
  end.

(** [d.get(k, dflt)] on a dictionary. *)
Definition dict_get (d : dict) (k : string) (dflt : value) : value :=
  match assoc k d with
  | Some v => v
  | None => dflt
  end.

(** [d[k]] on a dictionary. *)
Definition dict_getitem (d : dict) (k : string) : result value :=
  match assoc k d with
  | Some v => Ok v
  | None => Raise (KeyError (PStr k))
  end.

(** [k in d] on a dictionary. *)
Definition dict_mem (k : string) (d : dict) : bool :=
  match assoc k d with
  | Some _ => true
  | None => false
  end.

(** [o.get(k, dflt)]: only dictionaries have the method. *)
Definition py_get (o : value) (k : string) (dflt : value) : result value :=
  match o with
  | PDict d => Ok (dict_get d k dflt)
  | _ => Raise (AttributeError o "get")
  end.

Fixpoint dict_keys (d : dict) (seen : list string) : list value :=
  match d with
  | [] => []
  | (k, _) :: rest =>
      if existsb (String.eqb k) seen then dict_keys rest seen
      else PStr k :: dict_keys rest (k :: seen)
  end.

Definition str_chars (s : string) : list value :=
  map (fun c => PStr (String c EmptyString)) (list_ascii_of_string s).

(** The items a [for] loop visits. *)
Definition py_iter (o : value) : result (list value) :=
  match o with
  | PList l => Ok l
  | PDict d => Ok (dict_keys d [])
  | PStr s => Ok (str_chars s)
  | _ => Raise (TypeError o)
  end.

Definition seq_index {A} (l : list A) (i : Z) : option A :=
  let n := Z.of_nat (List.length l) in
  let j := if (i <? 0)%Z then (i + n)%Z else i in
  if (j <? 0)%Z then None else nth_error l (Z.to_nat j).

(** The subscripts the server writes: a string key or an integer index. *)
Inductive subscript : Type :=
| Key (k : string)
| Idx (i : Z).

(** [o[key]]. *)
Definition py_getitem (o : value) (key : subscript) : result value :=
  match o, key with
  | PDict d, Key k => dict_getitem d k
  | PDict _, Idx i => Raise (KeyError (PInt i))
  | PList l, Idx i =>
      match seq_index l i with Some v => Ok v | None => Raise IndexError end
  | PStr s, Idx i =>
      match seq_index (str_chars s) i with Some v => Ok v | None => Raise IndexError end
  | _, _ => Raise (TypeError o)
  end.

(** [v == s] for a string literal [s]. *)
Definition py_eq_str (v : value) (s : string) : bool :=
  match v with
  | PStr t => t =? s
  | _ => false
  end.

Fixpoint join_strs (sep : string) (parts : list string) : string :=
  match parts with
  | [] => ""
  | [s] => s
  | s :: rest => s ++ sep ++ join_strs sep rest
  end.

Fixpoint all_strs (parts : list value) : result (list string) :=
  match parts with
  | [] => Ok []
  | PStr s :: rest => let? ss := all_strs rest in Ok (s :: ss)
  | v :: _ => Raise (TypeError v)
  end.

(** [sep.join(parts)]: every item has to be a string. *)
Definition py_join (sep : string) (parts : list value) : result string :=
  let? ss := all_strs parts in Ok (join_strs sep ss).

(** [v + 1]. *)
Definition py_add_one (v : value) : result value :=
  match v with
  | PInt z => Ok (PInt (z + 1))
  | PBool b => Ok (PInt ((if b then 1 else 0) + 1))
  | PFloat f => Ok (PFloat (f + 1)%float)
  | _ => Raise (TypeError v)
  end.

Definition str_of_Z (z : Z) : string := NilZero.string_of_int (Z.to_int z).

(* ====================================================================== *)
(** * Data extraction utilities *)
(* ====================================================================== *)

Definition NO_DESCRIPTION : string := "No description available".

(** The inner [for text_item in paragraph_content] loop, with [text_parts]
    as the list being appended to. *)
Fixpoint paragraph_loop (items : list value) (text_parts : list value)
  : result (list value) :=
  match items with
  | [] => Ok text_parts
  | text_item :: rest =>
      let? ty := py_get text_item "type" PNone in
      if py_eq_str ty "text" then
        let? text := py_get text_item "text" (PStr "") in
        if truthy text then paragraph_loop rest (text_parts ++ [text])
        else paragraph_loop rest text_parts
      else paragraph_loop rest text_parts
  end.

(** The outer [for item in content] loop. *)
Fixpoint content_loop (items : list value) (text_parts : list value)
  : result (list value) :=
  match items with
  | [] => Ok text_parts
  | item :: rest =>
      let? ty := py_get item "type" PNone in
      if py_eq_str ty "paragraph" then
        let? paragraph_content := py_get item "content" (PList []) in
        let? inner := py_iter paragraph_content in
        let? text_parts' := paragraph_loop inner text_parts in
        content_loop rest text_parts'
      else content_loop rest text_parts
  end.

(** The traversal: what the body of the [try] collects in [text_parts]. *)
Definition collect_text_parts (content : value) : result (list value) :=
  let? items := py_iter content in
  content_loop items [].

(** The body of the [try] block. *)
Definition extract_description_try (description_field : value) : result string :=
  let? content := py_get description_field "content" (PList []) in
  if negb (truthy content) then Ok NO_DESCRIPTION
  else
    let? text_parts := collect_text_parts content in
    match text_parts with
    | [] => Ok NO_DESCRIPTION
    | _ => py_join " " text_parts
    end.

(** [except (AttributeError, KeyError, TypeError)]. *)
Definition caught_by_extractor (e : exn) : bool :=
  match e with
  | AttributeError _ _ | KeyError _ | TypeError _ => true
  | _ => false
  end.

Definition extract_description_from_jira (description_field : value) : result string :=
  if negb (truthy description_field) then Ok NO_DESCRIPTION
  else
    match extract_description_try description_field with
    | Ok s => Ok s
    | Raise e => if caught_by_extractor e then Ok NO_DESCRIPTION else Raise e
    end.

(* ====================================================================== *)
(** * The runtime and the outside world *)
(* ====================================================================== *)

Inductive http_method : Type := GET | POST | PUT.

(** One call of [httpx.AsyncClient]: [params] is set by [client.get],
    [json] by [client.post] and [client.put]. *)
Record request : Type := mkRequest {
  req_method : http_method;
  req_url : string;
  req_headers : list (string * string);
  req_params : option value;
  req_json : option value;
  req_timeout : Z
}.

(** How one call ends: the client raises (connection error, timeout),
    [raise_for_status] raises, [response.json()] raises, or a parsed body
    comes back. *)
Inductive http_outcome : Type :=
| RequestFailed
| BadStatus (status_code : Z)
| InvalidJson
| JsonBody (v : value).

(** The requests sent so far, oldest first. *)
Definition world := list request.

(** What the server takes from its surroundings.

    - [py_repr], [exn_text], [str_upper] and [b64encode] are the interpreter's
      [repr], [str] of an exception, [str.upper] and [base64.b64encode]; of
      [str.upper] the development only uses that it leaves the three method
      names the server passes unchanged;
    - the three credentials are module constants that the source file only
      describes (its docstring lists them as required configuration): they are
      parameters here;
    - [remote] is the pair of remote services: the outcome of a request may
      depend on everything that was sent before it. *)
Class Env : Type := {
  py_repr : value -> string;
  exn_text : exn -> string;
  str_upper : string -> string;
  b64encode : string -> string;
  JIRA_EMAIL : string;
  JIRA_API_TOKEN : string;
  CONFLUENCE_API_TOKEN : string;
  remote : world -> request -> http_outcome;
  str_upper_methods :
    str_upper "POST" = "POST" /\ str_upper "PUT" = "PUT" /\ str_upper "GET" = "GET"
}.

(** [str(v)], which is also what an f-string field prints. *)
Definition py_str `{Env} (v : value) : string :=
  match v with
  | PNone => "None"
  | PBool true => "True"
  | PBool false => "False"
  | PInt z => str_of_Z z
  | PStr s => s
  | _ => py_repr v
  end.

Definition extract_jira_field_value `{Env} (field_data : value) (field_name : string)
  : value :=
  if negb (truthy field_data) then PStr "Unknown"
  else
    match field_data with
    | PDict d => dict_get d field_name (PStr "Unknown")
    | _ => if truthy field_data then PStr (py_str field_data) else PStr "Unknown"
    end.

(** ** The [io] monad: a request log and exceptions *)

Definition io (A : Type) : Type := world -> result A * world.

Definition ret {A} (a : A) : io A := fun w => (Ok a, w).

Definition raise {A} (e : exn) : io A := fun w => (Raise e, w).

Definition lift {A} (r : result A) : io A := fun w => (r, w).

Definition bind {A B} (m : io A) (k : A -> io B) : io B :=
  fun w =>
    match m w with
    | (Ok a, w') => k a w'
    | (Raise e, w') => (Raise e, w')
    end.

(** [try: m  except Exception as e: h e]. *)
Definition try_except {A} (m : io A) (h : exn -> io A) : io A :=
  fun w =>
    match m w with
    | (Ok a, w') => (Ok a, w')
    | (Raise e, w') => h e w'
    end.

Notation "x <- m ;; k" := (bind m (fun x => k))
  (at level 61, m at next level, right associativity).

(** Send [req], check the status, parse the body. *)
Definition http_call `{Env} (req : request) : io value :=
  fun w =>
    (match remote w req with
     | RequestFailed => Raise RequestError
     | BadStatus code => Raise (HTTPStatusError code)
     | InvalidJson => Raise JSONDecodeError
     | JsonBody v => Ok v
     end, (w ++ [req])%list).

(* ====================================================================== *)
(** * Configuration and authentication *)
(* ====================================================================== *)

Definition JIRA_BASE_URL : string := "https://onedatascan.atlassian.net".
Definition CONFLUENCE_BASE_URL : string := "https://onedatascan.atlassian.net/wiki".

Definition DEFAULT_HEADERS : list (string * string) :=
  [("Accept", "application/json"); ("Content-Type", "application/json")].

Definition create_auth_headers `{Env} (token email : string) : list (string * string) :=
  let auth_string := email ++ ":" ++ token in
  let b64_auth := b64encode auth_string in
  let authorization := "Basic " ++ b64_auth in
  (DEFAULT_HEADERS ++ [("Authorization", authorization)])%list.

(* ====================================================================== *)
(** * HTTP request utilities *)
(* ====================================================================== *)

Definition jira_request `{Env} (endpoint : string) : request :=
  mkRequest GET (JIRA_BASE_URL ++ endpoint)
            (create_auth_headers JIRA_API_TOKEN JIRA_EMAIL) None None 30.

Definition make_jira_request `{Env} (endpoint : string) : io value :=
  try_except (http_call (jira_request endpoint)) (fun _ => ret PNone).

Definition confluence_request `{Env} (m : http_method) (endpoint : string) (payload : value)
  : request :=
  let url := CONFLUENCE_BASE_URL ++ endpoint in
  let headers := create_auth_headers CONFLUENCE_API_TOKEN JIRA_EMAIL in
  match m with
  | GET => mkRequest GET url headers (Some payload) None 30
  | _ => mkRequest m url headers None (Some payload) 30
  end.

Definition make_confluence_request `{Env} (endpoint : string) (payload : value)
  (method : string) : io value :=
  try_except
    (if str_upper method =? "POST" then
       http_call (confluence_request POST endpoint payload)
     else if str_upper method =? "PUT" then
       http_call (confluence_request PUT endpoint payload)
     else if str_upper method =? "GET" then
       http_call (confluence_request GET endpoint payload)
     else raise (ValueError ("Unsupported HTTP method: " ++ method)))
    (fun _ => ret PNone).

(* ====================================================================== *)
(** * Jira data processing *)
(* ====================================================================== *)

Definition nl : string := String "010"%char EmptyString.

Definition issue_endpoint (key : string) : string := "/rest/api/3/issue/" ++ key.

Definition fetch_jira_issue_details `{Env} (issue_key : string) : io (option dict) :=
  data <- make_jira_request (issue_endpoint issue_key) ;;
  if negb (truthy data) then ret None
  else
    fields <- lift (py_get data "fields" (PDict [])) ;;
    summary <- lift (py_get fields "summary" (PStr "No summary")) ;;
    status <- lift (py_get fields "status" PNone) ;;
    reporter <- lift (py_get fields "reporter" PNone) ;;
    assignee <- lift (py_get fields "assignee" PNone) ;;
    priority <- lift (py_get fields "priority" PNone) ;;
    issuetype <- lift (py_get fields "issuetype" PNone) ;;
    description_field <- lift (py_get fields "description" PNone) ;;
    description <- lift (extract_description_from_jira description_field) ;;
    subtasks <- lift (py_get fields "subtasks" (PList [])) ;;
    ret (Some [("key", PStr issue_key);
               ("summary", summary);
               ("status", extract_jira_field_value status "name");
               ("reporter", extract_jira_field_value reporter "displayName");
               ("assignee", extract_jira_field_value assignee "displayName");
               ("priority", extract_jira_field_value priority "name");
               ("issue_type", extract_jira_field_value issuetype "name");
               ("description", PStr description);
               ("subtasks", subtasks)]).

Definition SUBTASK_NO_KEY : string := "No subtask key found".
Definition SUBTASK_FETCH_FAILED : string := "Unable to fetch subtask details".

Definition fetch_subtask_details `{Env} (subtask_data : value) : io dict :=
  sub_key <- lift (py_get subtask_data "key" PNone) ;;
  if negb (truthy sub_key) then ret [("error", PStr SUBTASK_NO_KEY)]
  else
    sub_data <- make_jira_request (issue_endpoint (py_str sub_key)) ;;
    if negb (truthy sub_data) then
      ret [("key", sub_key); ("error", PStr SUBTASK_FETCH_FAILED)]
    else
      sub_fields <- lift (py_get sub_data "fields" (PDict [])) ;;
      summary <- lift (py_get sub_fields "summary" (PStr "No summary")) ;;
      status <- lift (py_get sub_fields "status" PNone) ;;
      reporter <- lift (py_get sub_fields "reporter" PNone) ;;
      description_field <- lift (py_get sub_fields "description" PNone) ;;
      description <- lift (extract_description_from_jira description_field) ;;
      ret [("key", sub_key);
           ("summary", summary);
           ("status", extract_jira_field_value status "name");
           ("reporter", extract_jira_field_value reporter "displayName");
           ("description", PStr description)].

(** The f-string opening the report. *)
Definition format_issue_header `{Env} (issue_details : dict) : result string :=
  let? key := dict_getitem issue_details "key" in
  let? summary := dict_getitem issue_details "summary" in
  let? status := dict_getitem issue_details "status" in
  let? reporter := dict_getitem issue_details "reporter" in
  let? description := dict_getitem issue_details "description" in
  Ok (nl ++ "Jira Ticket: " ++ py_str key ++ nl ++
      "Summary: " ++ py_str summary ++ nl ++
      "Status: " ++ py_str status ++ nl ++
      "Reporter: " ++ py_str reporter ++ nl ++
      "Description: " ++ py_str description ++ nl).

(** What one round of [for subtask in subtask_details] appends. *)
Definition format_subtask `{Env} (subtask : dict) : result string :=
  if dict_mem "error" subtask then
    let key := dict_get subtask "key" (PStr "Unknown") in
    let? error := dict_getitem subtask "error" in
    Ok (nl ++ "  - " ++ py_str key ++ ": " ++ py_str error ++ nl)
  else
    let? key := dict_getitem subtask "key" in
    let? summary := dict_getitem subtask "summary" in
    let? status := dict_getitem subtask "status" in
    let? reporter := dict_getitem subtask "reporter" in
    let? description := dict_getitem subtask "description" in
    Ok (nl ++ "  - " ++ py_str key ++ ": " ++ py_str summary ++ nl ++
        "    Status: " ++ py_str status ++ nl ++
        "    Reporter: " ++ py_str reporter ++ nl ++
        "    Description: " ++ py_str description ++ nl).

Fixpoint format_subtasks `{Env} (subtask_details : list dict) (acc : string)
  : result string :=
  match subtask_details with
  | [] => Ok acc
  | subtask :: rest =>
      let? piece := format_subtask subtask in
      format_subtasks rest (acc ++ piece)
  end.

Definition SUBTASKS_TITLE : string := nl ++ "Child Stories/Subtasks:" ++ nl.
Definition NO_SUBTASKS : string := nl ++ "No child stories or subtasks found." ++ nl.

Definition format_jira_issue_output `{Env} (issue_details : dict)
  (subtask_details : list dict) : result string :=
  let? header := format_issue_header issue_details in
  match subtask_details with
  | [] => Ok (header ++ NO_SUBTASKS)
  | _ => format_subtasks subtask_details (header ++ SUBTASKS_TITLE)
  end.

(* ====================================================================== *)
(** * Confluence page management *)
(* ====================================================================== *)

Definition search_params (space_key title : string) : value :=
  PDict [("title", PStr title); ("spaceKey", PStr space_key); ("expand", PStr "version")].

Definition find_existing_confluence_page `{Env} (space_key title : string) : io value :=
  search_data <- make_confluence_request "/rest/api/content"
                   (search_params space_key title) "GET" ;;
  if truthy search_data then
    results <- lift (py_get search_data "results" PNone) ;;
    if truthy results then
      results' <- lift (py_getitem search_data (Key "results")) ;;
      lift (py_getitem results' (Idx 0))
    else ret PNone
  else ret PNone.

Definition storage_body (content : string) : value :=
  PDict [("storage", PDict [("value", PStr content); ("representation", PStr "storage")])].

Definition page_data (space_key title content : string) : value :=
  PDict [("type", PStr "page");
         ("title", PStr title);
         ("space", PDict [("key", PStr space_key)]);
         ("body", storage_body content)].

Definition create_new_confluence_page `{Env} (space_key title content : string) : io value :=
  make_confluence_request "/rest/api/content/" (page_data space_key title content) "POST".

Definition update_data (page_id : value) (space_key title content : string)
  (next_version : value) : value :=
  PDict [("id", page_id);
         ("type", PStr "page");
         ("title", PStr title);
         ("space", PDict [("key", PStr space_key)]);
         ("body", storage_body content);
         ("version", PDict [("number", next_version)])].

Definition update_existing_confluence_page `{Env} (page_id : value)
  (space_key title content : string) (current_version : value) : io value :=
  next_version <- lift (py_add_one current_version) ;;
  make_confluence_request ("/rest/api/content/" ++ py_str page_id)
    (update_data page_id space_key title content next_version) "PUT".

Definition extract_page_url `{Env} (response_data : value) : result string :=
  let? links := py_get response_data "_links" (PDict []) in
  let? base_url := py_get links "base" (PStr "") in
  let? web_ui := py_get links "webui" (PStr "") in
  Ok (py_str base_url ++ py_str web_ui).

(* ====================================================================== *)
(** * MCP tools *)
(* ====================================================================== *)

(** [all([...])] over string arguments. *)
Definition all_nonempty (args : list string) : bool :=
  forallb (fun s => negb (s =? "")) args.

Fixpoint subtask_loop `{Env} (items : list value) (subtask_details : list dict)
  : io (list dict) :=
  match items with
  | [] => ret subtask_details
  | subtask_data :: rest =>
      subtask_info <- fetch_subtask_details subtask_data ;;
      subtask_loop rest (subtask_details ++ [subtask_info])
  end.

Definition get_jira_ticket `{Env} (issue_key : string) : io string :=
  issue_details <- fetch_jira_issue_details issue_key ;;
  match issue_details with
  | Some ((_ :: _) as details) =>
      declared <- lift (py_iter (dict_get details "subtasks" (PList []))) ;;
      subtask_details <- subtask_loop declared [] ;;
      lift (format_jira_issue_output details subtask_details)
  | _ => ret ("Unable to fetch Jira ticket " ++ issue_key ++ ".")
  end.

Definition create_confluence_page `{Env} (space_key title body : string) : io string :=
  try_except
    (if negb (all_nonempty [space_key; title; body]) then
       ret "Error: space_key, title, and body are all required"
     else
       response_data <- create_new_confluence_page space_key title body ;;
       if truthy response_data then
         page_url <- lift (extract_page_url response_data) ;;
         ret ("Page created successfully: " ++ page_url)
       else ret "Failed to create page: API request failed")
    (fun e => ret ("Error creating page: " ++ exn_text e)).

(** The create-or-update reconciliation: the part of
    [create_test_plan_from_jira] that starts at "Check if page already
    exists", kept under the name the specification gives it. *)
Definition create_or_update `{Env} (confluence_space_key confluence_title test_plan : string)
  : io string :=
  existing_page <- find_existing_confluence_page confluence_space_key confluence_title ;;
  if truthy existing_page then
    page_id <- lift (py_getitem existing_page (Key "id")) ;;
    version <- lift (py_getitem existing_page (Key "version")) ;;
    current_version <- lift (py_getitem version (Key "number")) ;;
    response_data <- update_existing_confluence_page page_id confluence_space_key
                       confluence_title test_plan current_version ;;
    if truthy response_data then
      page_url <- lift (extract_page_url response_data) ;;
      ret ("Test plan page updated successfully: " ++ page_url)
    else ret "Failed to update existing test plan page"
  else
    response_data <- create_new_confluence_page confluence_space_key
                       confluence_title test_plan ;;
    if truthy response_data then
      page_url <- lift (extract_page_url response_data) ;;
      ret ("Test plan page created successfully: " ++ page_url)
    else ret "Failed to create new test plan page".

Definition create_test_plan_from_jira `{Env}
  (issue_key confluence_space_key confluence_title test_plan : string) : io string :=
  try_except
    (if negb (all_nonempty [issue_key; confluence_space_key; confluence_title; test_plan]) then
       ret "Error: All parameters (issue_key, confluence_space_key, confluence_title, test_plan) are required"
     else
       issue_details <- fetch_jira_issue_details issue_key ;;
       match issue_details with
       | Some ((_ :: _) as details) =>
           _ <- lift (dict_getitem details "summary") ;;
           create_or_update confluence_space_key confluence_title test_plan
       | _ => ret ("Unable to fetch Jira ticket " ++ issue_key ++ " for validation.")
       end)
    (fun e => ret ("Error creating or updating test plan page: " ++ exn_text e)).

(* ====================================================================== *)
(** * The rich-text document as the specification describes it *)
(* ====================================================================== *)

(** These definitions follow the specification's data model, not the code:
    a document is an object whose [content] is a sequence of block nodes, a
    block node is an object with a [type], a paragraph's [content] (when it
    has one) is a sequence of inline nodes, an inline node is an object with
    a [type], and a text node carries its run as a string under [text]. *)

Definition spec_inline_ok (v : value) : bool :=
  match v with
  | PDict d =>
      match assoc "type" d with
      | Some (PStr ty) =>
          if ty =? "text" then
            match assoc "text" d with Some (PStr _) => true | _ => false end
          else true
      | _ => false
      end
  | _ => false
  end.

Definition spec_inline_runs (v : value) : list string :=
  match v with
  | PDict d =>
      match assoc "type" d, assoc "text" d with
      | Some (PStr ty), Some (PStr run) => if ty =? "text" then [run] else []
      | _, _ => []
      end
  | _ => []
  end.

Definition spec_block_ok (v : value) : bool :=
  match v with
  | PDict d =>
      match assoc "type" d with
      | Some (PStr ty) =>
          if ty =? "paragraph" then
            match assoc "content" d with
            | Some (PList inlines) => forallb spec_inline_ok inlines
            | None => true
            | _ => false
            end
          else true
      | _ => false
      end
  | _ => false
  end.

Definition spec_block_runs (v : value) : list string :=
  match v with
  | PDict d =>
      match assoc "type" d, assoc "content" d with
      | Some (PStr ty), Some (PList inlines) =>
          if ty =? "paragraph" then flat_map spec_inline_runs inlines else []
      | _, _ => []
      end
  | _ => []
  end.

Definition spec_well_formed (doc : value) : bool :=
  match doc with
  | PDict d =>
      match assoc "content" d with
      | Some (PList blocks) => forallb spec_block_ok blocks
      | _ => false
      end
  | _ => false
  end.

(** Every text run, top to bottom and left to right. *)
Definition spec_text_runs (doc : value) : list string :=
  match doc with
  | PDict d =>
      match assoc "content" d with
      | Some (PList blocks) => flat_map spec_block_runs blocks
      | _ => []
      end
  | _ => []
  end.

Definition nonempty_str (s : string) : bool := negb (s =? "").

Definition is_str (v : value) : bool :=
  match v with
  | PStr _ => true
  | _ => false
  end.

(** An inline node that spoils the extraction: a node that is not an object,
    or a text node whose text is a non-empty value that is not a string. *)
Definition inline_faults (v : value) : bool :=
  match v with
  | PDict d =>
      py_eq_str (dict_get d "type" PNone) "text" &&
      truthy (dict_get d "text" (PStr "")) &&
      negb (is_str (dict_get d "text" (PStr "")))
  | _ => true
  end.

(** A block that spoils the extraction: a node that is not an object, or a
    paragraph whose content cannot be iterated or holds a spoiling inline
    node. *)
Definition block_faults (v : value) : bool :=
  match v with
  | PDict d =>
      py_eq_str (dict_get d "type" PNone) "paragraph" &&
      match py_iter (dict_get d "content" (PList [])) with
      | Ok inner => existsb inline_faults inner
      | Raise _ => true
      end
  | _ => true
  end.

(** An inline node that is passed over: an object that is not a text node,
    or a text node without text. *)
Definition inline_is_skipped (v : value) : bool :=
  match v with
  | PDict d =>
      negb (py_eq_str (dict_get d "type" PNone) "text") ||
      negb (truthy (dict_get d "text" (PStr "")))
  | _ => false
  end.

(** A block that is passed over: an object that is not a paragraph, or a
    paragraph all of whose inline nodes are passed over (none at all when it
    has no content or an empty one). *)
Definition block_is_skipped (v : value) : bool :=
  match v with
  | PDict d =>
      negb (py_eq_str (dict_get d "type" PNone) "paragraph") ||
      match py_iter (dict_get d "content" (PList [])) with
      | Ok inner => forallb inline_is_skipped inner
      | Raise _ => false
      end
  | _ => false
  end.

(** The traversal raised, or collected something that is not a string. *)
Definition traversal_spoiled (r : result (list value)) : Prop :=
  match r with
  | Raise _ => True
  | Ok parts => forallb is_str parts = false
  end.

(* ====================================================================== *)
(** * Reading outcomes and requests *)
(* ====================================================================== *)

(** What [make_jira_request] and [make_confluence_request] hand back for an
    outcome: the parsed body, or [None]. *)
Definition request_result (o : http_outcome) : value :=
  match o with
  | JsonBody v => v
  | _ => PNone
  end.

Definition search_request `{Env} (space_key title : string) : request :=
  confluence_request GET "/rest/api/content" (search_params space_key title).

Definition create_request `{Env} (space_key title content : string) : request :=
  confluence_request POST "/rest/api/content/" (page_data space_key title content).

Definition update_request `{Env} (page_id : value) (space_key title content : string)
  (next_version : value) : request :=
  confluence_request PUT ("/rest/api/content/" ++ py_str page_id)
    (update_data page_id space_key title content next_version).


(** The call produced no parsed body at all. *)
Definition transport_failure (o : http_outcome) : bool :=
  match o with
  | JsonBody _ => false
  | _ => true
  end.

Definition issue_request `{Env} (key : string) : request :=
  jira_request (issue_endpoint key).


(** What [find_existing_confluence_page] makes of the search answer. *)
Definition first_search_result (search_data : value) : result value :=
  if truthy search_data then
    let? results := py_get search_data "results" PNone in
    if truthy results then
      let? results' := py_getitem search_data (Key "results") in
      py_getitem results' (Idx 0)
    else Ok PNone
  else Ok PNone.

(** How the reconciliation ends once the answer to the write is known. *)
Definition render_write `{Env} (done failed : string) (response_data : value) : result string :=
  if truthy response_data then
    let? page_url := extract_page_url response_data in Ok (done ++ page_url)
  else Ok failed.

(** The search answered, and its first hit is [page]. *)
Definition search_hit (search_data page : value) : Prop :=
  exists d more, search_data = PDict d /\ assoc "results" d = Some (PList (page :: more)).

(** The search came back empty-handed: nothing usable, or no results. *)
Definition search_miss (search_data : value) : Prop :=
  truthy search_data = false \/
  exists d, search_data = PDict d /\ truthy (dict_get d "results" PNone) = false.

(** A page record carrying an id and an integer version. *)
Definition page_at_version (page page_id : value) (V : Z) : Prop :=
  exists pd vd, page = PDict pd /\ assoc "id" pd = Some page_id /\
                assoc "version" pd = Some (PDict vd) /\
                assoc "number" vd = Some (PInt V).


Definition is_dict (v : value) : bool :=
  match v with
  | PDict _ => true
  | _ => false
  end.

(* ====================================================================== *)
(** * A concrete runtime for examples *)
(* ====================================================================== *)

Definition ascii_upper (c : ascii) : ascii :=
  let n := nat_of_ascii c in
  if (97 <=? n)%nat && (n <=? 122)%nat then ascii_of_nat (n - 32) else c.

Fixpoint upper_ascii_only (s : string) : string :=
  match s with
  | EmptyString => EmptyString
  | String c rest => String (ascii_upper c) (upper_ascii_only rest)
  end.

Definition same_method (a b : http_method) : bool :=
  match a, b with
  | GET, GET | POST, POST | PUT, PUT => true
  | _, _ => false
  end.

(** A remote service that answers by method and URL from a fixed table and
    refuses everything else. *)
Fixpoint table_remote (table : list (http_method * string * http_outcome))
  (w : world) (req : request) : http_outcome :=
  match table with
  | [] => RequestFailed
  | (m, url, o) :: rest =>
      if same_method m (req_method req) && (url =? req_url req) then o
      else table_remote rest w req
  end.

Definition example_env (table : list (http_method * string * http_outcome)) : Env :=
  {| py_repr := fun _ => "<repr>";
     exn_text := fun _ => "<exception>";
     str_upper := upper_ascii_only;
     b64encode := fun s => s;
     JIRA_EMAIL := "dev@example.com";
     JIRA_API_TOKEN := "jira-token";
     CONFLUENCE_API_TOKEN := "wiki-token";
     remote := table_remote table;
     str_upper_methods := conj eq_refl (conj eq_refl eq_refl) |}.

Definition jira_url (key : string) : string := JIRA_BASE_URL ++ issue_endpoint key.
Definition wiki_content_url : string := CONFLUENCE_BASE_URL ++ "/rest/api/content".

Definition issue_body (key summary : string) (subtasks : value) : value :=
  PDict [("key", PStr key);
         ("fields", PDict [("summary", PStr summary);
                           ("status", PDict [("name", PStr "Open")]);
                           ("reporter", PDict [("displayName", PStr "Ada")]);
                           ("subtasks", subtasks)])].

Definition page_answer : value :=
  PDict [("id", PStr "42");
         ("_links", PDict [("base", PStr "https://wiki.example.com");
                           ("webui", PStr "/spaces/SPACE/pages/42")])].

Definition search_answer (results : list value) : value :=
  PDict [("results", PList results); ("size", PInt (Z.of_nat (List.length results)))].

Definition found_page : value :=
  PDict [("id", PStr "42"); ("version", PDict [("number", PInt 3)])].

(** ABC-1 exists and its test plan page is at version 3. *)
Definition scenario_page_exists : list (http_method * string * http_outcome) :=
  [(GET, jira_url "ABC-1", JsonBody (issue_body "ABC-1" "Login fails" (PList [])));
   (GET, wiki_content_url, JsonBody (search_answer [found_page]));
   (PUT, wiki_content_url ++ "/42", JsonBody page_answer)].

(** ABC-1 exists and has no test plan page yet. *)
Definition scenario_no_page : list (http_method * string * http_outcome) :=
  [(GET, jira_url "ABC-1", JsonBody (issue_body "ABC-1" "Login fails" (PList [])));
   (GET, wiki_content_url, JsonBody (search_answer []));
   (POST, wiki_content_url ++ "/", JsonBody page_answer)].

(** ABC-1 exists and the wiki is unreachable. *)
Definition scenario_wiki_down : list (http_method * string * http_outcome) :=
  [(GET, jira_url "ABC-1", JsonBody (issue_body "ABC-1" "Login fails" (PList [])))].

(** ABC-2 has the sub-issues ABC-3, which the tracker refuses to serve, and
    ABC-4. *)
Definition scenario_subtask_fails : list (http_method * string * http_outcome) :=
  [(GET, jira_url "ABC-2",
    JsonBody (issue_body "ABC-2" "Checkout"
                (PList [PDict [("key", PStr "ABC-3")]; PDict [("key", PStr "ABC-4")]])));
   (GET, jira_url "ABC-3", BadStatus 404);
   (GET, jira_url "ABC-4", JsonBody (issue_body "ABC-4" "Pay by card" (PList [])))].

(** ABC-1 comes back with a null sub-issue list. *)
Definition scenario_null_subtasks : list (http_method * string * http_outcome) :=
  [(GET, jira_url "ABC-1", JsonBody (issue_body "ABC-1" "Login fails" PNone))].

Definition text_node (s : string) : value :=
  PDict [("type", PStr "text"); ("text", PStr s)].

Definition paragraph (inlines : list value) : value :=
  PDict [("type", PStr "paragraph"); ("content", PList inlines)].

Definition document (blocks : list value) : value :=
  PDict [("type", PStr "doc"); ("version", PInt 1); ("content", PList blocks)].

(** Three documents with a malformed node next to a sound paragraph. *)
Definition doc_missing_text : value :=
  document [paragraph [PDict [("type", PStr "text")]; text_node "hi"]].

Definition doc_missing_type : value :=
  document [PDict [("content", PList [text_node "lost"])]; paragraph [text_node "hi"]].

Definition doc_content_not_sequence : value :=
  document [PDict [("type", PStr "paragraph"); ("content", PDict [])];
            paragraph [text_node "hi"]].

(** A well-formed document with an empty text run. *)
Definition doc_empty_run : value :=
  document [paragraph [text_node "a"; text_node ""; text_node "b"]].

(* ====================================================================== *)
(** * Reading the request log *)
(* ====================================================================== *)

(** A read of one issue from the tracker: a GET without parameters or body
    whose URL is the issue endpoint of some key. *)
Definition is_issue_read `{Env} (r : request) : Prop :=
  exists key, r = issue_request key.

(** A call to the wiki content API as the transport client builds it. *)
Definition is_wiki_call `{Env} (r : request) : Prop :=
  exists m endpoint payload, r = confluence_request m endpoint payload.


(** [m] leaves the log it finds in place and appends only requests that
    satisfy [P]. *)
Definition sends {A} (P : request -> Prop) (m : io A) : Prop :=
  forall w, exists l, snd (m w) = (w ++ l)%list /\ Forall P l.

(** The keys of the record [fetch_jira_issue_details] builds, in order. *)
Definition ISSUE_RECORD_KEYS : list string :=
  ["key"; "summary"; "status"; "reporter"; "assignee"; "priority"; "issue_type";
   "description"; "subtasks"].

(** A bullet list whose only item holds a paragraph. *)
Definition nested_list_block : value :=
  PDict [("type", PStr "bulletList");
         ("content", PList [PDict [("type", PStr "listItem");
                                   ("content", PList [paragraph [text_node "nested"]])]])].

(** ABC-1 is answered with a JSON array. *)
Definition scenario_array_answer : list (http_method * string * http_outcome) :=
  [(GET, jira_url "ABC-1", JsonBody (PList [PInt 1]))].

(** ABC-1 exists; the wiki answers the search with a JSON array. *)
Definition scenario_search_array : list (http_method * string * http_outcome) :=
  [(GET, jira_url "ABC-1", JsonBody (issue_body "ABC-1" "Login fails" (PList [])));
   (GET, wiki_content_url, JsonBody (PList [PInt 1]))].

(** ABC-1 exists; the page found carries its version number as a string. *)
Definition scenario_version_string : list (http_method * string * http_outcome) :=
  [(GET, jira_url "ABC-1", JsonBody (issue_body "ABC-1" "Login fails" (PList [])));
   (GET, wiki_content_url,
    JsonBody (search_answer [PDict [("id", PStr "42");
                                    ("version", PDict [("number", PStr "3")])]]))].

(** ABC-1 exists, the page is found at version 3, and the update is refused. *)
Definition scenario_update_refused : list (http_method * string * http_outcome) :=
  [(GET, jira_url "ABC-1", JsonBody (issue_body "ABC-1" "Login fails" (PList [])));
   (GET, wiki_content_url, JsonBody (search_answer [found_page]));
   (PUT, wiki_content_url ++ "/42", BadStatus 409)].

(** The wiki accepts the creation and answers without links. *)
Definition scenario_created_no_links : list (http_method * string * http_outcome) :=
  [(POST, wiki_content_url ++ "/", JsonBody (PDict [("id", PStr "77")]))].



(* ====================================================================== *)
(** * Facts about values *)
(* ====================================================================== *)

Lemma assoc_some_nonempty (k : string) (d : dict) (v : value) :
  assoc k d = Some v -> truthy (PDict d) = true.
Proof. destruct d; [discriminate | reflexivity]. Qed.

Lemma dict_get_some (d : dict) (k : string) (v dflt : value) :
  assoc k d = Some v -> dict_get d k dflt = v.
Proof. intros Hk. unfold dict_get. rewrite Hk. reflexivity. Qed.

Lemma py_get_raises_attribute (o : value) (k : string) (dflt : value) (e : exn) :
  py_get o k dflt = Raise e -> e = AttributeError o "get".
Proof. destruct o; simpl; congruence. Qed.

Lemma py_iter_raises_type (o : value) (e : exn) :
  py_iter o = Raise e -> e = TypeError o.
Proof. destruct o; simpl; congruence. Qed.

Lemma all_strs_raises_type (parts : list value) (e : exn) :
  all_strs parts = Raise e -> exists v, e = TypeError v.
Proof.
  induction parts as [|p parts IH]; simpl; [discriminate|].
  destruct p; try (intros [= <-]; eauto).
  destruct (all_strs parts) eqn:E; simpl; [discriminate|].
  intros [= <-]. apply IH. reflexivity.
Qed.

Lemma all_strs_map_PStr (l : list string) : all_strs (map PStr l) = Ok l.
Proof. induction l as [|s l IH]; simpl; [|rewrite IH]; reflexivity. Qed.

Lemma join_strs_nonempty (sep s : string) (rest : list string) :
  s <> "" -> join_strs sep (s :: rest) <> "".
Proof.
  intros Hs. destruct s as [|c s]; [congruence|].
  destruct rest; simpl; discriminate.
Qed.

(* ====================================================================== *)
(** * The text extractor *)
(* ====================================================================== *)

Lemma paragraph_loop_caught (items acc : list value) (e : exn) :
  paragraph_loop items acc = Raise e -> caught_by_extractor e = true.
Proof.
  revert acc. induction items as [|it items IH]; intros acc; simpl; [discriminate|].
  destruct (py_get it "type" PNone) as [ty|e1] eqn:Ety; simpl.
  - destruct (py_eq_str ty "text"); [|apply IH].
    destruct (py_get it "text" (PStr "")) as [tx|e2] eqn:Etx; simpl.
    + destruct (truthy tx); apply IH.
    + intros [= <-]. apply py_get_raises_attribute in Etx. subst. reflexivity.
  - intros [= <-]. apply py_get_raises_attribute in Ety. subst. reflexivity.
Qed.

Lemma content_loop_caught (items acc : list value) (e : exn) :
  content_loop items acc = Raise e -> caught_by_extractor e = true.
Proof.
  revert acc. induction items as [|it items IH]; intros acc; simpl; [discriminate|].
  destruct (py_get it "type" PNone) as [ty|e1] eqn:Ety; simpl.
  - destruct (py_eq_str ty "paragraph"); [|apply IH].
    destruct (py_get it "content" (PList [])) as [pc|e2] eqn:Epc; simpl.
    + destruct (py_iter pc) as [inner|e3] eqn:Eit; simpl.
      * destruct (paragraph_loop inner acc) as [acc'|e4] eqn:Epl; simpl; [apply IH|].
        intros [= <-]. eapply paragraph_loop_caught; eauto.
      * intros [= <-]. apply py_iter_raises_type in Eit. subst. reflexivity.
    + intros [= <-]. apply py_get_raises_attribute in Epc. subst. reflexivity.
  - intros [= <-]. apply py_get_raises_attribute in Ety. subst. reflexivity.
Qed.

Lemma extract_description_try_caught (doc : value) (e : exn) :
  extract_description_try doc = Raise e -> caught_by_extractor e = true.
Proof.
  unfold extract_description_try, collect_text_parts.
  destruct (py_get doc "content" (PList [])) as [content|e1] eqn:Ec; simpl.
  - destruct (truthy content); simpl; [|discriminate].
    destruct (py_iter content) as [items|e2] eqn:Eit; simpl.
    + destruct (content_loop items []) as [parts|e3] eqn:Ecl; simpl.
      * destruct parts as [|p parts]; [discriminate|].
        unfold py_join. destruct (all_strs (p :: parts)) eqn:Ea; simpl; [discriminate|].
        intros [= <-]. apply all_strs_raises_type in Ea. destruct Ea as [v ->]. reflexivity.
      * intros [= <-]. eapply content_loop_caught; eauto.
    + intros [= <-]. apply py_iter_raises_type in Eit. subst. reflexivity.
  - intros [= <-]. apply py_get_raises_attribute in Ec. subst. reflexivity.
Qed.

Lemma extract_description_total (doc : value) :
  exists s, extract_description_from_jira doc = Ok s.
Proof.
  unfold extract_description_from_jira.
  destruct (truthy doc); simpl; [|eauto].
  destruct (extract_description_try doc) as [s|e] eqn:E; [eauto|].
  rewrite (extract_description_try_caught _ _ E). eauto.
Qed.

Lemma extract_description_degrades (doc : value) (e : exn) :
  extract_description_try doc = Raise e ->
  extract_description_from_jira doc = Ok NO_DESCRIPTION.
Proof.
  intros E. unfold extract_description_from_jira.
  destruct (truthy doc); simpl; [|reflexivity].
  rewrite E, (extract_description_try_caught _ _ E). reflexivity.
Qed.

(** The items collected by the traversal are never falsy. *)
Lemma paragraph_loop_truthy (items acc out : list value) :
  forallb truthy acc = true ->
  paragraph_loop items acc = Ok out -> forallb truthy out = true.
Proof.
  revert acc. induction items as [|it items IH]; intros acc Hacc; simpl.
  - intros [= <-]. exact Hacc.
  - destruct (py_get it "type" PNone) as [ty|]; simpl; [|discriminate].
    destruct (py_eq_str ty "text"); [|apply IH; exact Hacc].
    destruct (py_get it "text" (PStr "")) as [tx|]; simpl; [|discriminate].
    destruct (truthy tx) eqn:Et; apply IH; [|exact Hacc].
    rewrite forallb_app, Hacc. simpl. rewrite Et. reflexivity.
Qed.

Lemma content_loop_truthy (items acc out : list value) :
  forallb truthy acc = true ->
  content_loop items acc = Ok out -> forallb truthy out = true.
Proof.
  revert acc. induction items as [|it items IH]; intros acc Hacc; simpl.
  - intros [= <-]. exact Hacc.
  - destruct (py_get it "type" PNone) as [ty|]; simpl; [|discriminate].
    destruct (py_eq_str ty "paragraph"); [|apply IH; exact Hacc].
    destruct (py_get it "content" (PList [])) as [pc|]; simpl; [|discriminate].
    destruct (py_iter pc) as [inner|]; simpl; [|discriminate].
    destruct (paragraph_loop inner acc) as [acc'|] eqn:Epl; simpl; [|discriminate].
    apply IH. eapply paragraph_loop_truthy; eauto.
Qed.

Lemma extract_description_try_not_empty (doc : value) :
  extract_description_try doc <> Ok "".
Proof.
  unfold extract_description_try, collect_text_parts.
  destruct (py_get doc "content" (PList [])) as [content|]; simpl; [|discriminate].
  destruct (truthy content); simpl; [|discriminate].
  destruct (py_iter content) as [items|]; simpl; [|discriminate].
  destruct (content_loop items []) as [parts|] eqn:Ecl; simpl; [|discriminate].
  apply content_loop_truthy in Ecl; [|reflexivity].
  destruct parts as [|p parts]; [discriminate|].
  unfold py_join. simpl in *.
  destruct p; try discriminate.
  destruct (all_strs parts) as [ss|]; simpl; [|discriminate].
  apply andb_prop in Ecl. destruct Ecl as [Hs _].
  assert (Hne : join_strs " " (s :: ss) <> "")
    by (apply join_strs_nonempty; intros ->; discriminate).
  change (Ok (join_strs " " (s :: ss)) <> Ok "").
  congruence.
Qed.

Lemma extract_description_not_empty (doc : value) :
  extract_description_from_jira doc <> Ok "".
Proof.
  unfold extract_description_from_jira.
  destruct (truthy doc); simpl; [|discriminate].
  destruct (extract_description_try doc) as [s|e] eqn:E.
  - rewrite <- E. apply extract_description_try_not_empty.
  - destruct (caught_by_extractor e); discriminate.
Qed.

(** On well-formed inline nodes the inner loop appends exactly the non-empty
    runs, in order. *)
Lemma paragraph_loop_spec (items acc : list value) :
  forallb spec_inline_ok items = true ->
  paragraph_loop items acc =
  Ok (acc ++ map PStr (filter nonempty_str (flat_map spec_inline_runs items)))%list.
Proof.
  revert acc. induction items as [|it items IH]; intros acc Hok; simpl.
  - rewrite app_nil_r. reflexivity.
  - simpl in Hok. apply andb_prop in Hok. destruct Hok as [Hit Hrest].
    destruct it as [| | | | | |d]; try discriminate.
    simpl in Hit. simpl. unfold dict_get.
    destruct (assoc "type" d) as [[| | | |ty| |]|]; try discriminate.
    simpl. destruct (ty =? "text") eqn:Ety.
    + destruct (assoc "text" d) as [[| | | |run| |]|]; try discriminate.
      simpl. unfold nonempty_str at 1.
      destruct (negb (run =? "")) eqn:Erun; simpl.
      * rewrite IH by exact Hrest. rewrite <- app_assoc. reflexivity.
      * apply IH. exact Hrest.
    + replace (match assoc "text" d with
               | Some (PStr _) => [] | _ => [] end) with (@nil string)
        by (destruct (assoc "text" d) as [[| | | | | |]|]; reflexivity).
      simpl. apply IH. exact Hrest.
Qed.

Lemma content_loop_spec (items acc : list value) :
  forallb spec_block_ok items = true ->
  content_loop items acc =
  Ok (acc ++ map PStr (filter nonempty_str (flat_map spec_block_runs items)))%list.
Proof.
  revert acc. induction items as [|it items IH]; intros acc Hok; simpl.
  - rewrite app_nil_r. reflexivity.
  - simpl in Hok. apply andb_prop in Hok. destruct Hok as [Hit Hrest].
    destruct it as [| | | | | |d]; try discriminate.
    simpl in Hit. simpl. unfold dict_get.
    destruct (assoc "type" d) as [[| | | |ty| |]|]; try discriminate.
    simpl. destruct (ty =? "paragraph") eqn:Ety.
    + destruct (assoc "content" d) as [[| | | | |inlines|]|]; try discriminate; simpl.
      * rewrite paragraph_loop_spec by exact Hit. simpl.
        rewrite IH by exact Hrest.
        rewrite filter_app, map_app, app_assoc. reflexivity.
      * apply IH. exact Hrest.
    + replace (match assoc "content" d with
               | Some (PList _) => [] | _ => [] end) with (@nil string)
        by (destruct (assoc "content" d) as [[| | | | | |]|]; reflexivity).
      simpl. apply IH. exact Hrest.
Qed.

Lemma extract_description_well_formed (doc : value) :
  spec_well_formed doc = true ->
  filter nonempty_str (spec_text_runs doc) <> [] ->
  extract_description_from_jira doc =
  Ok (join_strs " " (filter nonempty_str (spec_text_runs doc))).
Proof.
  intros Hwf Hruns.
  destruct doc as [| | | | | |d]; try discriminate.
  simpl in Hwf, Hruns.
  destruct (assoc "content" d) as [[| | | | |blocks|]|] eqn:Ec; try discriminate.
  unfold extract_description_from_jira.
  rewrite (assoc_some_nonempty _ _ _ Ec). simpl.
  unfold extract_description_try. simpl. unfold dict_get. rewrite Ec. simpl.
  destruct blocks as [|b blocks]; [simpl in Hruns; congruence|].
  cbn [truthy negb]. unfold collect_text_parts. cbn [py_iter rbind].
  rewrite content_loop_spec by exact Hwf. cbn [app rbind].
  destruct (filter nonempty_str (flat_map spec_block_runs (b :: blocks)))
    as [|r runs] eqn:Ef; [congruence|].
  cbn [map]. unfold py_join. cbn [all_strs rbind].
  rewrite all_strs_map_PStr. reflexivity.
Qed.

Lemma filter_all_true {A} (f : A -> bool) (l : list A) :
  forallb f l = true -> filter f l = l.
Proof.
  induction l as [|a l IH]; simpl; [reflexivity|].
  intros H. apply andb_prop in H. destruct H as [Ha Hl].
  rewrite Ha, IH by exact Hl. reflexivity.
Qed.

(** C3 as stated fails: documents with malformed nodes (a text node without
    its [text], a block without its [type], a paragraph whose content is an
    empty object rather than a sequence) still yield the text of their sound
    paragraphs, not the sentinel. *)
Lemma malformed_document_keeps_text :
  (spec_well_formed doc_missing_text = false /\
   extract_description_from_jira doc_missing_text = Ok "hi") /\
  (spec_well_formed doc_missing_type = false /\
   extract_description_from_jira doc_missing_type = Ok "hi") /\
  (spec_well_formed doc_content_not_sequence = false /\
   extract_description_from_jira doc_content_not_sequence = Ok "hi") /\
  Ok "hi" <> Ok NO_DESCRIPTION.
Proof.
  repeat split; try reflexivity. discriminate.
Qed.

(** C4, as the code has it: on a well-formed document with at least one
    non-empty text run, the extractor returns the non-empty text runs joined
    by single spaces, in document order; nodes of other types are skipped.
    When every run is non-empty these are all the runs.  The extractor is a
    function of the document alone, so extracting again gives the same text. *)
Theorem extract_description_joins_runs (doc : value) :
  spec_well_formed doc = true ->
  (filter nonempty_str (spec_text_runs doc) <> [] ->
   extract_description_from_jira doc =
   Ok (join_strs " " (filter nonempty_str (spec_text_runs doc)))) /\
  (spec_text_runs doc <> [] ->
   forallb nonempty_str (spec_text_runs doc) = true ->
   extract_description_from_jira doc = Ok (join_strs " " (spec_text_runs doc))).
Proof.
  intros Hwf. split.
  - apply extract_description_well_formed. exact Hwf.
  - intros Hne Hall.
    pose proof (extract_description_well_formed doc Hwf) as H.
    rewrite (filter_all_true _ _ Hall) in H. apply H. exact Hne.
Qed.

(** Witness for C4: two paragraphs around a block of another type. *)
Lemma extract_description_joins_runs_witness :
  extract_description_from_jira
    (document [paragraph [text_node "Fix"; PDict [("type", PStr "emoji")]; text_node "login"];
               PDict [("type", PStr "rule")];
               paragraph [text_node "soon"]])
  = Ok "Fix login soon".
Proof.
  refine (proj2 (extract_description_joins_runs _ _) _ _).
  - reflexivity.
  - discriminate.
  - reflexivity.
Defined.

(** C4 as stated fails on empty text runs: they are dropped, not joined. *)
Lemma empty_text_run_is_dropped :
  spec_well_formed doc_empty_run = true /\
  spec_text_runs doc_empty_run = ["a"; ""; "b"] /\
  extract_description_from_jira doc_empty_run = Ok "a b" /\
  extract_description_from_jira doc_empty_run
  <> Ok (join_strs " " (spec_text_runs doc_empty_run)).
Proof.
  repeat split; try reflexivity. discriminate.
Qed.



(* ====================================================================== *)
(** * The field accessor *)
(* ====================================================================== *)

(** C6: the field accessor returns "Unknown" for an absent or empty object
    and for an object without the requested key, the key's value for an
    object that has it, and the string form of any other non-empty value. *)
Theorem extract_jira_field_value_cases `{Env} (obj : value) (field_name : string) :
  (truthy obj = false -> extract_jira_field_value obj field_name = PStr "Unknown") /\
  (forall d, obj = PDict d -> assoc field_name d = None ->
             extract_jira_field_value obj field_name = PStr "Unknown") /\
  (forall d v, obj = PDict d -> assoc field_name d = Some v ->
               extract_jira_field_value obj field_name = v) /\
  (truthy obj = true -> is_dict obj = false ->
   extract_jira_field_value obj field_name = PStr (py_str obj)).
Proof.
  unfold extract_jira_field_value. repeat split.
  - intros ->. reflexivity.
  - intros d -> Hk. destruct (truthy (PDict d)); simpl; [|reflexivity].
    unfold dict_get. rewrite Hk. reflexivity.
  - intros d v -> Hk. rewrite (assoc_some_nonempty _ _ _ Hk). simpl.
    unfold dict_get. rewrite Hk. reflexivity.
  - intros Ht Hd. rewrite Ht. simpl.
    destruct obj; try reflexivity. discriminate.
Qed.

(** Witness for C6: a status object, a reporter without display name, and a
    priority given as a bare number. *)
Lemma extract_jira_field_value_cases_witness :
  extract_jira_field_value (H := example_env []) (PDict []) "name" = PStr "Unknown" /\
  extract_jira_field_value (H := example_env [])
    (PDict [("accountId", PStr "u1")]) "displayName" = PStr "Unknown" /\
  extract_jira_field_value (H := example_env [])
    (PDict [("id", PInt 3); ("name", PStr "Done")]) "name" = PStr "Done" /\
  extract_jira_field_value (H := example_env []) (PInt 3) "name" = PStr "3".
Proof.
  split; [|split; [|split]].
  - apply (proj1 (extract_jira_field_value_cases (PDict []) "name")). reflexivity.
  - eapply (proj1 (proj2 (extract_jira_field_value_cases _ _))); reflexivity.
  - eapply (proj1 (proj2 (proj2 (extract_jira_field_value_cases _ _)))); reflexivity.
  - apply (proj2 (proj2 (proj2 (extract_jira_field_value_cases (PInt 3) "name"))));
      reflexivity.
Defined.

(* ====================================================================== *)
(** * Running the transport client *)
(* ====================================================================== *)

Section Transport.
Context `{Env}.

Lemma make_jira_request_run (endpoint : string) (w : world) :
  make_jira_request endpoint w =
  (Ok (request_result (remote w (jira_request endpoint))),
   (w ++ [jira_request endpoint])%list).
Proof.
  unfold make_jira_request, try_except, http_call.
  destruct (remote w (jira_request endpoint)); reflexivity.
Qed.

Lemma http_call_caught (req : request) (w : world) :
  try_except (http_call req) (fun _ => ret PNone) w =
  (Ok (request_result (remote w req)), (w ++ [req])%list).
Proof.
  unfold try_except, http_call. destruct (remote w req); reflexivity.
Qed.

Lemma make_confluence_request_GET (endpoint : string) (payload : value) (w : world) :
  make_confluence_request endpoint payload "GET" w =
  (Ok (request_result (remote w (confluence_request GET endpoint payload))),
   (w ++ [confluence_request GET endpoint payload])%list).
Proof.
  unfold make_confluence_request.
  destruct str_upper_methods as (_ & _ & ->). simpl. apply http_call_caught.
Qed.

Lemma make_confluence_request_POST (endpoint : string) (payload : value) (w : world) :
  make_confluence_request endpoint payload "POST" w =
  (Ok (request_result (remote w (confluence_request POST endpoint payload))),
   (w ++ [confluence_request POST endpoint payload])%list).
Proof.
  unfold make_confluence_request.
  destruct str_upper_methods as (-> & _ & _). simpl. apply http_call_caught.
Qed.

Lemma make_confluence_request_PUT (endpoint : string) (payload : value) (w : world) :
  make_confluence_request endpoint payload "PUT" w =
  (Ok (request_result (remote w (confluence_request PUT endpoint payload))),
   (w ++ [confluence_request PUT endpoint payload])%list).
Proof.
  unfold make_confluence_request.
  destruct str_upper_methods as (_ & -> & _). simpl. apply http_call_caught.
Qed.

End Transport.

(** C10: a method that is, once upper-cased, none of POST, PUT and GET makes
    the wiki transport call return the absent result without sending
    anything: the [ValueError] it raises is caught by the handler that
    downgrades transport errors, which yields the same absent result when a
    request was sent and failed. *)
Theorem make_confluence_request_unsupported_method `{Env}
  (endpoint : string) (payload : value) (method : string) (w : world) :
  str_upper method <> "POST" -> str_upper method <> "PUT" -> str_upper method <> "GET" ->
  make_confluence_request endpoint payload method w = (Ok PNone, w) /\
  (remote w (confluence_request POST endpoint payload) = RequestFailed ->
   make_confluence_request endpoint payload "POST" w =
   (Ok PNone, (w ++ [confluence_request POST endpoint payload])%list)).
Proof.
  intros Hpost Hput Hget. split.
  - unfold make_confluence_request, try_except.
    apply String.eqb_neq in Hpost, Hput, Hget.
    rewrite Hpost, Hput, Hget. reflexivity.
  - intros Hfail. rewrite make_confluence_request_POST, Hfail. reflexivity.
Qed.

(** Witness for C10: DELETE is not supported. *)
Lemma make_confluence_request_unsupported_method_witness :
  make_confluence_request (H := example_env []) "/rest/api/content/7" (PDict []) "delete" []
  = (Ok PNone, []).
Proof.
  apply (make_confluence_request_unsupported_method (H := example_env []));
    vm_compute; discriminate.
Defined.

(* ====================================================================== *)
(** * Running the aggregator and the reconciler *)
(* ====================================================================== *)

Ltac io_unfold := unfold bind, lift, ret, raise, try_except in *.

Section Reconciler.
Context `{Env}.

Lemma fetch_jira_issue_details_world (issue_key : string) (w : world) :
  snd (fetch_jira_issue_details issue_key w) = (w ++ [issue_request issue_key])%list.
Proof.
  unfold fetch_jira_issue_details, bind at 1.
  rewrite make_jira_request_run. fold (issue_request issue_key).
  destruct (truthy _); simpl; [|reflexivity].
  destruct (request_result _) as [| | | | | |d]; try reflexivity.
  io_unfold. simpl.
  destruct (dict_get d "fields" (PDict [])) as [| | | | | |fields]; try reflexivity.
  simpl.
  destruct (extract_description_total (dict_get fields "description" PNone)) as [s ->].
  reflexivity.
Qed.

Lemma fetch_jira_issue_details_failed (issue_key : string) (w : world) :
  truthy (request_result (remote w (issue_request issue_key))) = false ->
  fetch_jira_issue_details issue_key w = (Ok None, (w ++ [issue_request issue_key])%list).
Proof.
  intros Hf. unfold fetch_jira_issue_details, bind at 1.
  rewrite make_jira_request_run. fold (issue_request issue_key).
  rewrite Hf. reflexivity.
Qed.

(** A record that comes back always carries its nine entries. *)
Lemma fetch_jira_issue_details_some (issue_key : string) (w w1 : world) (details : dict) :
  fetch_jira_issue_details issue_key w = (Ok (Some details), w1) ->
  (exists e rest, details = e :: rest) /\
  (exists summary, dict_getitem details "summary" = Ok summary) /\
  w1 = (w ++ [issue_request issue_key])%list.
Proof.
  intros Hrun.
  pose proof (fetch_jira_issue_details_world issue_key w) as Hw.
  rewrite Hrun in Hw. simpl in Hw. split; [|split; [|exact Hw]].
  all: revert Hrun; unfold fetch_jira_issue_details, bind at 1;
    rewrite make_jira_request_run;
    destruct (truthy _); simpl; [|discriminate];
    destruct (request_result _) as [| | | | | |d]; try discriminate;
    io_unfold; simpl;
    destruct (dict_get d "fields" (PDict [])) as [| | | | | |fields]; try discriminate;
    simpl;
    destruct (extract_description_total (dict_get fields "description" PNone)) as [s ->];
    intros [= <- _]; eauto.
  eexists. reflexivity.
Qed.

Lemma find_existing_confluence_page_run (space_key title : string) (w : world) :
  find_existing_confluence_page space_key title w =
  (first_search_result (request_result (remote w (search_request space_key title))),
   (w ++ [search_request space_key title])%list).
Proof.
  unfold find_existing_confluence_page, bind at 1.
  rewrite make_confluence_request_GET. fold (search_request space_key title).
  unfold first_search_result.
  destruct (truthy _); [|reflexivity].
  io_unfold.
  destruct (py_get _ "results" PNone) as [results|]; simpl; [|reflexivity].
  destruct (truthy results); [|reflexivity].
  destruct (py_getitem _ (Key "results")) as [results'|]; simpl; [|reflexivity].
  destruct (py_getitem results' (Idx 0)); reflexivity.
Qed.

Lemma first_search_result_miss (search_data : value) :
  search_miss search_data -> first_search_result search_data = Ok PNone.
Proof.
  unfold first_search_result. intros [Hf | (d & -> & Hr)].
  - rewrite Hf. reflexivity.
  - destruct (truthy (PDict d)); [|reflexivity]. simpl. rewrite Hr. reflexivity.
Qed.

Lemma first_search_result_hit (search_data page : value) :
  search_hit search_data page -> first_search_result search_data = Ok page.
Proof.
  intros (d & more & -> & Hr). unfold first_search_result.
  rewrite (assoc_some_nonempty _ _ _ Hr). simpl.
  unfold dict_get, dict_getitem. rewrite Hr. reflexivity.
Qed.

Lemma create_or_update_creates (space_key title body : string) (w : world) (page : value) :
  first_search_result (request_result (remote w (search_request space_key title))) = Ok page ->
  truthy page = false ->
  create_or_update space_key title body w =
  (render_write "Test plan page created successfully: "
                "Failed to create new test plan page"
     (request_result (remote (w ++ [search_request space_key title])%list
                             (create_request space_key title body))),
   (w ++ [search_request space_key title; create_request space_key title body])%list).
Proof.
  intros Hs Hp. unfold create_or_update, bind at 1.
  rewrite find_existing_confluence_page_run, Hs. cbv beta iota. rewrite Hp.
  unfold create_new_confluence_page, bind at 1.
  rewrite make_confluence_request_POST. fold (create_request space_key title body).
  rewrite <- app_assoc. cbn [app]. unfold render_write. clear Hs Hp.
  destruct (truthy _); [|reflexivity].
  io_unfold. destruct (extract_page_url _); reflexivity.
Qed.

Lemma create_or_update_updates (space_key title body : string) (w : world)
  (page page_id : value) (V : Z) :
  first_search_result (request_result (remote w (search_request space_key title))) = Ok page ->
  page_at_version page page_id V ->
  create_or_update space_key title body w =
  (render_write "Test plan page updated successfully: "
                "Failed to update existing test plan page"
     (request_result (remote (w ++ [search_request space_key title])%list
                             (update_request page_id space_key title body (PInt (V + 1))))),
   (w ++ [search_request space_key title;
          update_request page_id space_key title body (PInt (V + 1))])%list).
Proof.
  intros Hs (pd & vd & -> & Hid & Hver & Hnum).
  unfold create_or_update, bind at 1.
  rewrite find_existing_confluence_page_run, Hs.
  rewrite (assoc_some_nonempty _ _ _ Hid).
  io_unfold. simpl. unfold dict_getitem. rewrite Hid, Hver. simpl.
  unfold dict_getitem. rewrite Hnum.
  unfold update_existing_confluence_page. io_unfold. simpl.
  rewrite make_confluence_request_PUT.
  fold (update_request page_id space_key title body (PInt (V + 1))).
  rewrite <- app_assoc. cbn [app]. unfold render_write.
  destruct (truthy (request_result _)); [|reflexivity].
  destruct (extract_page_url _); reflexivity.
Qed.

(** The URL is the two fragments of [_links], one after the other. *)
Lemma extract_page_url_links (response links : dict) :
  assoc "_links" response = Some (PDict links) ->
  extract_page_url (PDict response)
  = Ok (py_str (dict_get links "base" (PStr "")) ++ py_str (dict_get links "webui" (PStr ""))).
Proof.
  intros Hlinks.
  assert (Hl : dict_get response "_links" (PDict []) = PDict links)
    by (unfold dict_get; rewrite Hlinks; reflexivity).
  unfold extract_page_url. cbn [py_get rbind]. rewrite Hl. reflexivity.
Qed.

(** Past validation the tool is the reconciliation under its handler. *)
Lemma create_test_plan_validated
  (issue_key space_key title body : string) (w w1 : world) (details : dict) :
  all_nonempty [issue_key; space_key; title; body] = true ->
  fetch_jira_issue_details issue_key w = (Ok (Some details), w1) ->
  create_test_plan_from_jira issue_key space_key title body w =
  try_except (create_or_update space_key title body)
    (fun e => ret ("Error creating or updating test plan page: " ++ exn_text e)) w1.
Proof.
  intros Hargs Hfetch.
  destruct (fetch_jira_issue_details_some _ _ _ _ Hfetch)
    as ((e & rest & ->) & (summary & Hsum) & _).
  unfold create_test_plan_from_jira. rewrite Hargs. cbn [negb]. cbv beta iota.
  unfold try_except at 1. unfold bind at 1. rewrite Hfetch.
  unfold bind at 1. unfold lift at 1. rewrite Hsum.
  unfold try_except. reflexivity.
Qed.

End Reconciler.

(* ====================================================================== *)
(** * The create-or-update reconciliation *)
(* ====================================================================== *)

(** C1: once the arguments are validated and the issue is fetched, the tool
    reconciles the page.  When the search finds nothing, the wiki sees the
    search and exactly one POST whose JSON body is the page with the given
    title, space and body, and the tool returns the URL made of the two link
    fragments of the answer.  When the first hit of the search is a page with
    id [page_id] at version [V], the wiki sees the search and exactly one PUT
    to that page whose JSON body carries the id, the title, the space, the
    new body in full (nothing of the old one) and the version number
    [V + 1], and the tool returns the URL made of the two link fragments of
    the answer. *)
Theorem create_test_plan_reconciles `{Env}
  (issue_key space_key title body : string) (w w1 : world) (details : dict) :
  all_nonempty [issue_key; space_key; title; body] = true ->
  fetch_jira_issue_details issue_key w = (Ok (Some details), w1) ->
  search_request space_key title
  = mkRequest GET (CONFLUENCE_BASE_URL ++ "/rest/api/content")
      (create_auth_headers CONFLUENCE_API_TOKEN JIRA_EMAIL)
      (Some (PDict [("title", PStr title); ("spaceKey", PStr space_key);
                    ("expand", PStr "version")]))
      None 30 /\
  (search_miss (request_result (remote w1 (search_request space_key title))) ->
   snd (create_test_plan_from_jira issue_key space_key title body w)
   = (w1 ++ [search_request space_key title; create_request space_key title body])%list /\
   create_request space_key title body
   = mkRequest POST (CONFLUENCE_BASE_URL ++ "/rest/api/content/")
       (create_auth_headers CONFLUENCE_API_TOKEN JIRA_EMAIL)
       None
       (Some (PDict [("type", PStr "page");
                     ("title", PStr title);
                     ("space", PDict [("key", PStr space_key)]);
                     ("body", PDict [("storage",
                                      PDict [("value", PStr body);
                                             ("representation", PStr "storage")])])]))
       30 /\
   (forall url,
     truthy (request_result (remote (w1 ++ [search_request space_key title])%list
                                    (create_request space_key title body))) = true ->
     extract_page_url (request_result (remote (w1 ++ [search_request space_key title])%list
                                              (create_request space_key title body))) = Ok url ->
     fst (create_test_plan_from_jira issue_key space_key title body w)
     = Ok ("Test plan page created successfully: " ++ url)) /\
   (forall response links,
     request_result (remote (w1 ++ [search_request space_key title])%list
                            (create_request space_key title body)) = PDict response ->
     assoc "_links" response = Some (PDict links) ->
     fst (create_test_plan_from_jira issue_key space_key title body w)
     = Ok ("Test plan page created successfully: "
           ++ py_str (dict_get links "base" (PStr ""))
           ++ py_str (dict_get links "webui" (PStr "")))))
  /\
  (forall page page_id V,
     search_hit (request_result (remote w1 (search_request space_key title))) page ->
     page_at_version page page_id V ->
     snd (create_test_plan_from_jira issue_key space_key title body w)
     = (w1 ++ [search_request space_key title;
               update_request page_id space_key title body (PInt (V + 1))])%list /\
     update_request page_id space_key title body (PInt (V + 1))
     = mkRequest PUT (CONFLUENCE_BASE_URL ++ "/rest/api/content/" ++ py_str page_id)
         (create_auth_headers CONFLUENCE_API_TOKEN JIRA_EMAIL)
         None
         (Some (PDict [("id", page_id);
                       ("type", PStr "page");
                       ("title", PStr title);
                       ("space", PDict [("key", PStr space_key)]);
                       ("body", PDict [("storage",
                                        PDict [("value", PStr body);
                                               ("representation", PStr "storage")])]);
                       ("version", PDict [("number", PInt (V + 1))])]))
         30 /\
     (forall url,
       truthy (request_result
                 (remote (w1 ++ [search_request space_key title])%list
                         (update_request page_id space_key title body (PInt (V + 1))))) = true ->
       extract_page_url
         (request_result
            (remote (w1 ++ [search_request space_key title])%list
                    (update_request page_id space_key title body (PInt (V + 1))))) = Ok url ->
       fst (create_test_plan_from_jira issue_key space_key title body w)
       = Ok ("Test plan page updated successfully: " ++ url)) /\
     (forall response links,
       request_result
         (remote (w1 ++ [search_request space_key title])%list
                 (update_request page_id space_key title body (PInt (V + 1))))
       = PDict response ->
       assoc "_links" response = Some (PDict links) ->
       fst (create_test_plan_from_jira issue_key space_key title body w)
       = Ok ("Test plan page updated successfully: "
             ++ py_str (dict_get links "base" (PStr ""))
             ++ py_str (dict_get links "webui" (PStr ""))))).
Proof.
  intros Hargs Hfetch.
  rewrite (create_test_plan_validated _ _ _ _ _ _ _ Hargs Hfetch).
  split; [reflexivity|]. split.
  - intros Hmiss. apply first_search_result_miss in Hmiss.
    unfold try_except.
    rewrite (create_or_update_creates _ _ _ _ _ Hmiss eq_refl).
    unfold render_write.
    split; [|split; [reflexivity|split]].
    + destruct (truthy (request_result _)); [|reflexivity].
      destruct (extract_page_url _); reflexivity.
    + intros url -> ->. reflexivity.
    + intros response links -> Hlinks.
      rewrite (assoc_some_nonempty _ _ _ Hlinks), (extract_page_url_links _ _ Hlinks).
      reflexivity.
  - intros page page_id V Hhit Hver. apply first_search_result_hit in Hhit.
    unfold try_except.
    rewrite (create_or_update_updates _ _ _ _ _ _ _ Hhit Hver).
    unfold render_write.
    split; [|split; [reflexivity|split]].
    + destruct (truthy (request_result _)); [|reflexivity].
      destruct (extract_page_url _); reflexivity.
    + intros url -> ->. reflexivity.
    + intros response links -> Hlinks.
      rewrite (assoc_some_nonempty _ _ _ Hlinks), (extract_page_url_links _ _ Hlinks).
      reflexivity.
Qed.

(** Witness for C1: the page "Test Plan for ABC-1" exists at version 3 and is
    updated with version 4; in a space without it the page is created. *)
Lemma create_test_plan_reconciles_witness :
  snd (create_test_plan_from_jira (H := example_env scenario_page_exists)
         "ABC-1" "SPACE" "Test Plan for ABC-1" "<p>plan</p>" [])
  = [issue_request (H := example_env scenario_page_exists) "ABC-1";
     search_request (H := example_env scenario_page_exists) "SPACE" "Test Plan for ABC-1";
     update_request (H := example_env scenario_page_exists) (PStr "42")
       "SPACE" "Test Plan for ABC-1" "<p>plan</p>" (PInt 4)] /\
  fst (create_test_plan_from_jira (H := example_env scenario_page_exists)
         "ABC-1" "SPACE" "Test Plan for ABC-1" "<p>plan</p>" [])
  = Ok "Test plan page updated successfully: https://wiki.example.com/spaces/SPACE/pages/42" /\
  create_test_plan_from_jira (H := example_env scenario_no_page)
    "ABC-1" "SPACE" "Test Plan for ABC-1" "<p>plan</p>" []
  = (Ok "Test plan page created successfully: https://wiki.example.com/spaces/SPACE/pages/42",
     [issue_request (H := example_env scenario_no_page) "ABC-1";
      search_request (H := example_env scenario_no_page) "SPACE" "Test Plan for ABC-1";
      create_request (H := example_env scenario_no_page)
        "SPACE" "Test Plan for ABC-1" "<p>plan</p>"]).
Proof.
  destruct (create_test_plan_reconciles (H := example_env scenario_no_page)
              "ABC-1" "SPACE" "Test Plan for ABC-1" "<p>plan</p>" []
              [issue_request (H := example_env scenario_no_page) "ABC-1"]
              (match fst (fetch_jira_issue_details (H := example_env scenario_no_page)
                            "ABC-1" []) with
               | Ok (Some d) => d
               | _ => []
               end)
              eq_refl eq_refl) as (_ & Hcreate & _).
  destruct Hcreate as (Hlog' & _ & _ & Hurl').
  { right. exists [("results", PList []); ("size", PInt 0)]. split; reflexivity. }
  specialize (Hurl' [("id", PStr "42");
                     ("_links", PDict [("base", PStr "https://wiki.example.com");
                                       ("webui", PStr "/spaces/SPACE/pages/42")])]
                [("base", PStr "https://wiki.example.com");
                 ("webui", PStr "/spaces/SPACE/pages/42")]
                eq_refl eq_refl).
  destruct (create_test_plan_reconciles (H := example_env scenario_page_exists)
              "ABC-1" "SPACE" "Test Plan for ABC-1" "<p>plan</p>" []
              [issue_request (H := example_env scenario_page_exists) "ABC-1"]
              (match fst (fetch_jira_issue_details (H := example_env scenario_page_exists)
                            "ABC-1" []) with
               | Ok (Some d) => d
               | _ => []
               end)
              eq_refl eq_refl) as (_ & _ & Hupdate).
  destruct (Hupdate found_page (PStr "42") 3%Z) as (Hlog & _ & _ & Hurl).
  - exists [("results", PList [found_page]); ("size", PInt 1)], []. split; reflexivity.
  - exists [("id", PStr "42"); ("version", PDict [("number", PInt 3)])],
           [("number", PInt 3)].
    repeat split; reflexivity.
  - split; [exact Hlog|]. split.
    + apply (Hurl [("id", PStr "42");
                   ("_links", PDict [("base", PStr "https://wiki.example.com");
                                     ("webui", PStr "/spaces/SPACE/pages/42")])]
               [("base", PStr "https://wiki.example.com");
                ("webui", PStr "/spaces/SPACE/pages/42")]); reflexivity.
    + rewrite (surjective_pairing (create_test_plan_from_jira _ _ _ _ _)).
      rewrite Hlog', Hurl'. reflexivity.
Defined.

Section ReconcilerFailures.
Context `{Env}.

Lemma transport_failure_no_result (o : http_outcome) :
  transport_failure o = true -> request_result o = PNone.
Proof. destruct o; simpl; [reflexivity | reflexivity | reflexivity | discriminate]. Qed.


Lemma try_except_total {A} (m : io A) (h : exn -> A) (w : world) :
  exists a, fst (try_except m (fun e => ret (h e)) w) = Ok a.
Proof. unfold try_except, ret. destruct (m w) as [[a|e] w']; simpl; eauto. Qed.


Lemma create_confluence_page_rejects_empty_argument (space_key title body : string) (w : world) :
  all_nonempty [space_key; title; body] = false ->
  create_confluence_page space_key title body w =
  (Ok "Error: space_key, title, and body are all required", w).
Proof. intros Hargs. unfold create_confluence_page. rewrite Hargs. reflexivity. Qed.

Lemma create_confluence_page_never_raises (space_key title body : string) (w : world) :
  exists message, fst (create_confluence_page space_key title body w) = Ok message.
Proof. apply try_except_total. Qed.


Lemma create_test_plan_never_raises
  (issue_key space_key title body : string) (w : world) :
  exists message,
    fst (create_test_plan_from_jira issue_key space_key title body w) = Ok message.
Proof. apply try_except_total. Qed.


End ReconcilerFailures.

(** C7: when the search gets no parsed body back, the reconciliation goes on
    as if no page had been found and sends the creation request; when that
    request gets no parsed body back either, the tool returns the failure
    message and no URL. *)
Theorem search_failure_falls_back_to_create `{Env}
  (issue_key space_key title body : string) (w w1 : world) (details : dict) :
  all_nonempty [issue_key; space_key; title; body] = true ->
  fetch_jira_issue_details issue_key w = (Ok (Some details), w1) ->
  transport_failure (remote w1 (search_request space_key title)) = true ->
  find_existing_confluence_page space_key title w1
  = (Ok PNone, (w1 ++ [search_request space_key title])%list) /\
  snd (create_test_plan_from_jira issue_key space_key title body w)
  = (w1 ++ [search_request space_key title; create_request space_key title body])%list /\
  (transport_failure (remote (w1 ++ [search_request space_key title])%list
                             (create_request space_key title body)) = true ->
   fst (create_test_plan_from_jira issue_key space_key title body w)
   = Ok "Failed to create new test plan page").
Proof.
  intros Hargs Hfetch Hsearch.
  apply transport_failure_no_result in Hsearch.
  assert (Hmiss : first_search_result
                    (request_result (remote w1 (search_request space_key title))) = Ok PNone)
    by (rewrite Hsearch; reflexivity).
  split; [rewrite find_existing_confluence_page_run, Hmiss; reflexivity|].
  rewrite (create_test_plan_validated _ _ _ _ _ _ _ Hargs Hfetch).
  unfold try_except.
  rewrite (create_or_update_creates _ _ _ _ _ Hmiss eq_refl).
  unfold render_write. split.
  - destruct (truthy _); [|reflexivity].
    destruct (extract_page_url _); reflexivity.
  - intros Hcreate. apply transport_failure_no_result in Hcreate.
    rewrite Hcreate. reflexivity.
Qed.

(** Witness for C7: the tracker answers, the wiki is unreachable. *)
Lemma search_failure_falls_back_to_create_witness :
  snd (create_test_plan_from_jira (H := example_env scenario_wiki_down)
         "ABC-1" "SPACE" "Test Plan for ABC-1" "<p>plan</p>" [])
  = [issue_request (H := example_env scenario_wiki_down) "ABC-1";
     search_request (H := example_env scenario_wiki_down) "SPACE" "Test Plan for ABC-1";
     create_request (H := example_env scenario_wiki_down)
       "SPACE" "Test Plan for ABC-1" "<p>plan</p>"] /\
  fst (create_test_plan_from_jira (H := example_env scenario_wiki_down)
         "ABC-1" "SPACE" "Test Plan for ABC-1" "<p>plan</p>" [])
  = Ok "Failed to create new test plan page".
Proof.
  destruct (search_failure_falls_back_to_create (H := example_env scenario_wiki_down)
              "ABC-1" "SPACE" "Test Plan for ABC-1" "<p>plan</p>" []
              [issue_request (H := example_env scenario_wiki_down) "ABC-1"]
              (match fst (fetch_jira_issue_details (H := example_env scenario_wiki_down)
                            "ABC-1" []) with
               | Ok (Some d) => d
               | _ => []
               end)
              eq_refl eq_refl eq_refl) as (_ & Hlog & Hfail).
  split; [exact Hlog | apply Hfail; reflexivity].
Defined.




(* ====================================================================== *)
(** * The issue aggregator and the report *)
(* ====================================================================== *)

Lemma str_app_assoc (a b c : string) : (a ++ b) ++ c = a ++ (b ++ c).
Proof. induction a as [|x a IH]; simpl; [|rewrite IH]; reflexivity. Qed.


Section Aggregator.
Context `{Env}.







End Aggregator.

Section AggregatorEntries.
Context `{Env}.



End AggregatorEntries.




(** The report of that run, in full. *)
Example report_with_failed_subtask :
  fst (get_jira_ticket (H := example_env scenario_subtask_fails) "ABC-2" [])
  = Ok (nl ++ "Jira Ticket: ABC-2" ++ nl ++
        "Summary: Checkout" ++ nl ++
        "Status: Open" ++ nl ++
        "Reporter: Ada" ++ nl ++
        "Description: No description available" ++ nl ++
        nl ++ "Child Stories/Subtasks:" ++ nl ++
        nl ++ "  - ABC-3: Unable to fetch subtask details" ++ nl ++
        nl ++ "  - ABC-4: Pay by card" ++ nl ++
        "    Status: Open" ++ nl ++
        "    Reporter: Ada" ++ nl ++
        "    Description: No description available" ++ nl).
Proof. vm_compute. reflexivity. Qed.

(* ====================================================================== *)
(** * The tool facade *)
(* ====================================================================== *)

(** C2 holds for [create_confluence_page] and [create_test_plan_from_jira]
    (see [create_confluence_page_rejects_empty_argument],
    [create_test_plan_rejects_empty_argument] and the two [_never_raises]
    lemmas) and fails for [get_jira_ticket], which has neither the validation
    nor the handler of its two siblings: called with the empty key it sends
    its request all the same, and a tracker answer whose sub-issue list is
    null makes it raise [TypeError] to its caller.  The last two equations
    show the siblings turning an empty argument down without a request. *)
Theorem get_jira_ticket_unguarded :
  get_jira_ticket (H := example_env []) "" []
  = (Ok "Unable to fetch Jira ticket .", [issue_request (H := example_env []) ""]) /\
  get_jira_ticket (H := example_env scenario_null_subtasks) "ABC-1" []
  = (Raise (TypeError PNone),
     [issue_request (H := example_env scenario_null_subtasks) "ABC-1"]) /\
  create_confluence_page (H := example_env []) "" "Title" "<p>body</p>" []
  = (Ok "Error: space_key, title, and body are all required", []) /\
  create_test_plan_from_jira (H := example_env scenario_null_subtasks)
    "" "SPACE" "Title" "<p>plan</p>" []
  = (Ok "Error: All parameters (issue_key, confluence_space_key, confluence_title, test_plan) are required",
     []).
Proof. repeat split. Qed.

(* ====================================================================== *)
(** * Further properties of the text extractor *)
(* ====================================================================== *)

(** X1: a description that is not an object (a plain string, a number, a
    list) is answered with the sentinel: its text is not returned. *)
Theorem extract_description_not_an_object (description_field : value) :
  is_dict description_field = false ->
  extract_description_from_jira description_field = Ok NO_DESCRIPTION.
Proof.
  intros Hd. unfold extract_description_from_jira.
  destruct (truthy description_field); simpl; [|reflexivity].
  destruct description_field; try reflexivity. discriminate.
Qed.

Lemma extract_description_not_an_object_witness :
  extract_description_from_jira (PStr "Steps to reproduce the fault")
  = Ok "No description available".
Proof. apply extract_description_not_an_object. reflexivity. Defined.

Lemma content_loop_skips_block (pre post : list value) (block : dict) :
  py_eq_str (dict_get block "type" PNone) "paragraph" = false ->
  forall acc,
    content_loop (pre ++ PDict block :: post) acc = content_loop (pre ++ post) acc.
Proof.
  intros Hty. induction pre as [|b pre IH]; intros acc; simpl.
  - rewrite Hty. reflexivity.
  - destruct (py_get b "type" PNone) as [ty|]; simpl; [|reflexivity].
    destruct (py_eq_str ty "paragraph"); [|apply IH].
    destruct (py_get b "content" (PList [])) as [pc|]; simpl; [|reflexivity].
    destruct (py_iter pc) as [inner|]; simpl; [|reflexivity].
    destruct (paragraph_loop inner acc); simpl; [apply IH | reflexivity].
Qed.

(** X2: a block whose type is not "paragraph" contributes nothing, whatever
    it holds: the extractor does not descend into lists, tables or panels,
    and taking such a block out of the document leaves the result as it is. *)
Theorem extract_description_ignores_other_blocks
  (d d' : dict) (pre post : list value) (block : dict) :
  assoc "content" d = Some (PList (pre ++ PDict block :: post)) ->
  assoc "content" d' = Some (PList (pre ++ post)) ->
  py_eq_str (dict_get block "type" PNone) "paragraph" = false ->
  extract_description_from_jira (PDict d) = extract_description_from_jira (PDict d').
Proof.
  intros Hc Hc' Hty. unfold extract_description_from_jira.
  rewrite (assoc_some_nonempty _ _ _ Hc), (assoc_some_nonempty _ _ _ Hc').
  cbn [negb]. unfold extract_description_try. cbn [py_get rbind].
  rewrite !(dict_get_some _ _ _ _ Hc), !(dict_get_some _ _ _ _ Hc').
  assert (Hfull : truthy (PList (pre ++ PDict block :: post)) = true)
    by (destruct pre; reflexivity).
  rewrite Hfull. cbn [negb]. unfold collect_text_parts. cbn [py_iter rbind].
  rewrite (content_loop_skips_block _ _ _ Hty).
  destruct (pre ++ post)%list as [|b rest] eqn:Hrest; [|reflexivity].
  reflexivity.
Qed.

Lemma extract_description_ignores_other_blocks_witness :
  extract_description_from_jira
    (document [paragraph [text_node "Intro"]; nested_list_block; paragraph [text_node "End"]])
  = Ok "Intro End".
Proof.
  unfold document.
  rewrite (extract_description_ignores_other_blocks
             [("type", PStr "doc"); ("version", PInt 1);
              ("content", PList [paragraph [text_node "Intro"]; nested_list_block;
                                 paragraph [text_node "End"]])]
             [("content", PList [paragraph [text_node "Intro"]; paragraph [text_node "End"]])]
             [paragraph [text_node "Intro"]] [paragraph [text_node "End"]]
             [("type", PStr "bulletList");
              ("content", PList [PDict [("type", PStr "listItem");
                                        ("content", PList [paragraph [text_node "nested"]])]])]
             eq_refl eq_refl eq_refl).
  reflexivity.
Defined.

Lemma all_strs_stops_at (before : list string) (v : value) (after : list value) :
  is_str v = false ->
  all_strs (map PStr before ++ v :: after) = Raise (TypeError v).
Proof.
  intros Hv. induction before as [|s before IH]; simpl.
  - destruct v; try reflexivity. discriminate.
  - rewrite IH. reflexivity.
Qed.

(** What the inner loop does with one text node whose text is [v]. *)
Lemma paragraph_loop_text_value (node : dict) (v : value) (rest acc : list value) :
  assoc "type" node = Some (PStr "text") ->
  assoc "text" node = Some v ->
  truthy v = true ->
  paragraph_loop (PDict node :: rest) acc = paragraph_loop rest (acc ++ [v]).
Proof.
  intros Hty Htx Hv. simpl. unfold dict_get. rewrite Hty, Htx. simpl.
  rewrite Hv. reflexivity.
Qed.

Lemma paragraph_loop_app (items1 items2 acc : list value) :
  paragraph_loop (items1 ++ items2) acc =
  (let? acc' := paragraph_loop items1 acc in paragraph_loop items2 acc').
Proof.
  revert acc. induction items1 as [|it items1 IH]; intros acc; simpl; [reflexivity|].
  destruct (py_get it "type" PNone) as [ty|]; simpl; [|reflexivity].
  destruct (py_eq_str ty "text"); [|apply IH].
  destruct (py_get it "text" (PStr "")) as [tx|]; simpl; [|reflexivity].
  destruct (truthy tx); apply IH.
Qed.

Lemma content_loop_app (items1 items2 acc : list value) :
  content_loop (items1 ++ items2) acc =
  (let? acc' := content_loop items1 acc in content_loop items2 acc').
Proof.
  revert acc. induction items1 as [|it items1 IH]; intros acc; simpl; [reflexivity|].
  destruct (py_get it "type" PNone) as [ty|]; simpl; [|reflexivity].
  destruct (py_eq_str ty "paragraph"); [|apply IH].
  destruct (py_get it "content" (PList [])) as [pc|]; simpl; [|reflexivity].
  destruct (py_iter pc) as [inner|]; simpl; [|reflexivity].
  destruct (paragraph_loop inner acc); simpl; [apply IH | reflexivity].
Qed.

(** X3: one text node whose text is a non-empty value that is not a string
    (a number, a list) costs the whole description: in a document that is
    well formed everywhere else the extractor returns the sentinel, not the
    text of the other nodes. *)
Theorem extract_description_non_string_text
  (d para node : dict) (pre post inl_pre inl_post : list value) (v : value) :
  assoc "content" d = Some (PList (pre ++ PDict para :: post)) ->
  assoc "type" para = Some (PStr "paragraph") ->
  assoc "content" para = Some (PList (inl_pre ++ PDict node :: inl_post)) ->
  assoc "type" node = Some (PStr "text") ->
  assoc "text" node = Some v ->
  truthy v = true -> is_str v = false ->
  forallb spec_block_ok pre = true -> forallb spec_block_ok post = true ->
  forallb spec_inline_ok inl_pre = true -> forallb spec_inline_ok inl_post = true ->
  extract_description_from_jira (PDict d) = Ok NO_DESCRIPTION.
Proof.
  intros Hc Hpt Hpc Hnt Hnx Hv Hs Hpre Hpost Hipre Hipost.
  unfold extract_description_from_jira.
  rewrite (assoc_some_nonempty _ _ _ Hc). cbn [negb].
  unfold extract_description_try. cbn [py_get rbind].
  rewrite !(dict_get_some _ _ _ _ Hc).
  assert (Hfull : truthy (PList (pre ++ PDict para :: post)) = true)
    by (destruct pre; reflexivity).
  rewrite Hfull. cbn [negb]. unfold collect_text_parts. cbn [py_iter rbind].
  rewrite content_loop_app, (content_loop_spec _ _ Hpre). cbn [rbind app].
  cbn [content_loop py_get rbind]. rewrite !(dict_get_some _ _ _ _ Hpt).
  change (py_eq_str (PStr "paragraph") "paragraph") with true. cbv iota.
  rewrite !(dict_get_some _ _ _ _ Hpc). cbn [py_iter rbind].
  rewrite paragraph_loop_app, (paragraph_loop_spec _ _ Hipre). cbn [rbind].
  rewrite (paragraph_loop_text_value _ _ _ _ Hnt Hnx Hv).
  rewrite (paragraph_loop_spec _ _ Hipost). cbn [rbind].
  rewrite (content_loop_spec _ _ Hpost). cbn [rbind].
  set (a := filter nonempty_str (flat_map spec_block_runs pre)).
  set (b := filter nonempty_str (flat_map spec_inline_runs inl_pre)).
  set (c := map PStr (filter nonempty_str (flat_map spec_inline_runs inl_post))).
  set (e := map PStr (filter nonempty_str (flat_map spec_block_runs post))).
  replace ((((map PStr a ++ map PStr b) ++ [v]) ++ c) ++ e)%list
    with (map PStr (a ++ b) ++ v :: (c ++ e))%list
    by (rewrite map_app, <- !app_assoc; reflexivity).
  pose proof (all_strs_stops_at (a ++ b) v (c ++ e)%list Hs) as Hjoin.
  destruct (map PStr (a ++ b) ++ v :: (c ++ e))%list as [|p parts]; [reflexivity|].
  unfold py_join. rewrite Hjoin. reflexivity.
Qed.

Lemma extract_description_non_string_text_witness :
  extract_description_from_jira
    (document [paragraph [text_node "Fails on build"; 
                          PDict [("type", PStr "text"); ("text", PInt 42)]];
               paragraph [text_node "since Monday"]])
  = Ok "No description available".
Proof.
  unfold document.
  apply (extract_description_non_string_text
           [("type", PStr "doc"); ("version", PInt 1);
            ("content", PList [paragraph [text_node "Fails on build";
                                          PDict [("type", PStr "text"); ("text", PInt 42)]];
                               paragraph [text_node "since Monday"]])]
           [("type", PStr "paragraph");
            ("content", PList [text_node "Fails on build";
                               PDict [("type", PStr "text"); ("text", PInt 42)]])]
           [("type", PStr "text"); ("text", PInt 42)]
           [] [paragraph [text_node "since Monday"]]
           [text_node "Fails on build"] [] (PInt 42));
    reflexivity.
Defined.

(* ====================================================================== *)
(** * Further properties of the transport client *)
(* ====================================================================== *)

(** X4: the tracker call never raises and sends exactly one GET; it hands
    back the parsed body when there is one and [None] for a connection
    error, a bad status or a body that is not JSON alike. *)
Theorem make_jira_request_downgrades `{Env} (endpoint : string) (w : world) :
  snd (make_jira_request endpoint w) = (w ++ [jira_request endpoint])%list /\
  req_method (jira_request endpoint) = GET /\
  req_url (jira_request endpoint) = JIRA_BASE_URL ++ endpoint /\
  (forall v, remote w (jira_request endpoint) = JsonBody v ->
             fst (make_jira_request endpoint w) = Ok v) /\
  (transport_failure (remote w (jira_request endpoint)) = true ->
   fst (make_jira_request endpoint w) = Ok PNone).
Proof.
  rewrite make_jira_request_run. repeat split.
  - intros v ->. reflexivity.
  - intros Hf. simpl. rewrite (transport_failure_no_result _ Hf). reflexivity.
Qed.

Lemma make_jira_request_downgrades_witness :
  make_jira_request (H := example_env scenario_subtask_fails) "/rest/api/3/issue/ABC-3" []
  = (Ok PNone,
     [jira_request (H := example_env scenario_subtask_fails) "/rest/api/3/issue/ABC-3"]).
Proof.
  destruct (make_jira_request_downgrades (H := example_env scenario_subtask_fails)
              "/rest/api/3/issue/ABC-3" []) as (Hlog & _ & _ & _ & Hnone).
  rewrite (surjective_pairing (make_jira_request _ _)), Hlog, (Hnone eq_refl).
  reflexivity.
Defined.

(** X5: the wiki call picks its verb from the upper-cased method name, POST
    before PUT before GET, so "put" and "Put" are a PUT.  A GET carries the
    payload as query parameters, a POST or PUT as JSON body.  Whatever the
    method name and the outcome, the call returns a value and sends at most
    one request. *)
Theorem make_confluence_request_dispatch `{Env}
  (endpoint : string) (payload : value) (method : string) (w : world) :
  (str_upper method = "POST" ->
   make_confluence_request endpoint payload method w
   = (Ok (request_result (remote w (confluence_request POST endpoint payload))),
      (w ++ [confluence_request POST endpoint payload])%list)) /\
  (str_upper method = "PUT" ->
   make_confluence_request endpoint payload method w
   = (Ok (request_result (remote w (confluence_request PUT endpoint payload))),
      (w ++ [confluence_request PUT endpoint payload])%list)) /\
  (str_upper method = "GET" ->
   make_confluence_request endpoint payload method w
   = (Ok (request_result (remote w (confluence_request GET endpoint payload))),
      (w ++ [confluence_request GET endpoint payload])%list)) /\
  req_params (confluence_request GET endpoint payload) = Some payload /\
  req_json (confluence_request GET endpoint payload) = None /\
  req_json (confluence_request POST endpoint payload) = Some payload /\
  req_json (confluence_request PUT endpoint payload) = Some payload /\
  exists v l, make_confluence_request endpoint payload method w = (Ok v, (w ++ l)%list) /\
              (List.length l <= 1)%nat.
Proof.
  unfold make_confluence_request.
  split; [|split; [|split]].
  - intros ->. simpl. apply http_call_caught.
  - intros ->. simpl. apply http_call_caught.
  - intros ->. simpl. apply http_call_caught.
  - repeat split.
    destruct (str_upper method =? "POST");
      [rewrite http_call_caught; do 2 eexists; split; [reflexivity | simpl; lia]|].
    destruct (str_upper method =? "PUT");
      [rewrite http_call_caught; do 2 eexists; split; [reflexivity | simpl; lia]|].
    destruct (str_upper method =? "GET");
      [rewrite http_call_caught; do 2 eexists; split; [reflexivity | simpl; lia]|].
    exists PNone, []. rewrite app_nil_r. split; [reflexivity | simpl; lia].
Qed.

Lemma make_confluence_request_dispatch_witness :
  snd (make_confluence_request (H := example_env scenario_page_exists)
         "/rest/api/content/42" (PDict [("id", PStr "42")]) "put" [])
  = [confluence_request (H := example_env scenario_page_exists)
       PUT "/rest/api/content/42" (PDict [("id", PStr "42")])].
Proof.
  destruct (make_confluence_request_dispatch (H := example_env scenario_page_exists)
              "/rest/api/content/42" (PDict [("id", PStr "42")]) "put" [])
    as (_ & Hput & _).
  rewrite (Hput eq_refl). reflexivity.
Defined.

(* ====================================================================== *)
(** * What the tools send *)
(* ====================================================================== *)

Section Log.
Context `{Env}.

Lemma sends_ret {A} (P : request -> Prop) (a : A) : sends P (ret a).
Proof. intros w. exists []. rewrite app_nil_r. split; [reflexivity | constructor]. Qed.

Lemma sends_lift {A} (P : request -> Prop) (r : result A) : sends P (lift r).
Proof. intros w. exists []. rewrite app_nil_r. split; [reflexivity | constructor]. Qed.

Lemma sends_bind {A B} (P : request -> Prop) (m : io A) (k : A -> io B) :
  sends P m -> (forall a, sends P (k a)) -> sends P (bind m k).
Proof.
  intros Hm Hk w. destruct (Hm w) as (l & Hl & Fl). unfold bind.
  destruct (m w) as [[a|e] w']; simpl in Hl; subst w'.
  - destruct (Hk a (w ++ l)%list) as (l' & Hl' & Fl').
    exists (l ++ l')%list. rewrite Hl', app_assoc. split; [reflexivity|].
    apply Forall_app. split; assumption.
  - exists l. split; [reflexivity | assumption].
Qed.

Lemma sends_try_except {A} (P : request -> Prop) (m : io A) (h : exn -> io A) :
  sends P m -> (forall e, sends P (h e)) -> sends P (try_except m h).
Proof.
  intros Hm Hh w. destruct (Hm w) as (l & Hl & Fl). unfold try_except.
  destruct (m w) as [[a|e] w']; simpl in Hl; subst w'.
  - exists l. split; [reflexivity | assumption].
  - destruct (Hh e (w ++ l)%list) as (l' & Hl' & Fl').
    exists (l ++ l')%list. rewrite Hl', app_assoc. split; [reflexivity|].
    apply Forall_app. split; assumption.
Qed.

Lemma sends_http_call (P : request -> Prop) (req : request) :
  P req -> sends P (http_call req).
Proof.
  intros Hp w. exists [req]. split; [reflexivity|]. constructor; [exact Hp | constructor].
Qed.

Ltac sends_step :=
  match goal with
  | |- sends _ (ret _) => apply sends_ret
  | |- sends _ (lift _) => apply sends_lift
  | |- sends _ (http_call _) => apply sends_http_call
  | |- sends _ (bind _ _) => apply sends_bind; [|intros]
  | |- sends _ (try_except _ _) => apply sends_try_except; [|intros]
  | |- sends _ (if ?b then _ else _) => destruct b
  | |- sends _ (match ?x with _ => _ end) => destruct x
  end.

Lemma sends_make_jira_request (P : request -> Prop) (endpoint : string) :
  P (jira_request endpoint) -> sends P (make_jira_request endpoint).
Proof. intros Hp. unfold make_jira_request. repeat sends_step. exact Hp. Qed.


Lemma sends_fetch_subtask_details (P : request -> Prop) (subtask_data : value) :
  (forall key, P (issue_request key)) -> sends P (fetch_subtask_details subtask_data).
Proof.
  intros Hp. unfold fetch_subtask_details.
  apply sends_bind; [apply sends_lift|]. intros sub_key.
  destruct (negb (truthy sub_key)); [apply sends_ret|].
  apply sends_bind; [apply sends_make_jira_request; apply Hp|].
  intros sub_data. repeat sends_step.
Qed.

Lemma sends_subtask_loop (P : request -> Prop) (items : list value) :
  (forall key, P (issue_request key)) ->
  forall acc, sends P (subtask_loop items acc).
Proof.
  intros Hp. induction items as [|item items IH]; intros acc; cbn [subtask_loop].
  - apply sends_ret.
  - apply sends_bind; [apply sends_fetch_subtask_details; exact Hp|].
    intros info. apply IH.
Qed.

End Log.

Section LogExact.
Context `{Env}.









End LogExact.

(** X6: [get_jira_ticket] only reads.  The first thing it sends is the read
    of the issue it was asked for; everything it sends after that is the read
    of one issue from the tracker.  It never writes and never calls the
    wiki, whatever the tracker answers and also when it ends in a fault. *)
Theorem get_jira_ticket_only_reads `{Env} (issue_key : string) (w : world) :
  exists l,
    snd (get_jira_ticket issue_key w) = (w ++ issue_request issue_key :: l)%list /\
    Forall is_issue_read l /\
    Forall (fun r => req_method r = GET /\ req_params r = None /\ req_json r = None)
           (issue_request issue_key :: l).
Proof.
  assert (Hrest : exists l,
             snd (get_jira_ticket issue_key w) = (w ++ issue_request issue_key :: l)%list /\
             Forall is_issue_read l).
  { unfold get_jira_ticket, bind at 1.
    pose proof (fetch_jira_issue_details_world issue_key w) as Hw.
    destruct (fetch_jira_issue_details issue_key w) as [[details|e] w1];
      simpl in Hw; subst w1.
    - assert (Hk : sends is_issue_read
                (match details with
                 | Some ((_ :: _) as details0) =>
                     declared <- lift (py_iter (dict_get details0 "subtasks" (PList []))) ;;
                     subtask_details <- subtask_loop declared [] ;;
                     lift (format_jira_issue_output details0 subtask_details)
                 | _ => ret ("Unable to fetch Jira ticket " ++ issue_key ++ ".")
                 end)).
      { destruct details as [[|entry rest]|]; try apply sends_ret.
        apply sends_bind; [apply sends_lift|]. intros declared.
        apply sends_bind; [|intros; apply sends_lift].
        apply sends_subtask_loop. intros key. exists key. reflexivity. }
      destruct (Hk (w ++ [issue_request issue_key])%list) as (l & Hl & Fl).
      exists l. rewrite Hl, <- app_assoc. split; [reflexivity | exact Fl].
    - exists []. split; [reflexivity | constructor]. }
  destruct Hrest as (l & Hl & Fl). exists l. split; [exact Hl|]. split; [exact Fl|].
  constructor; [repeat split|].
  eapply Forall_impl; [|exact Fl]. intros r (key & ->). repeat split.
Qed.


(* ====================================================================== *)
(** * Further properties of the issue aggregator *)
(* ====================================================================== *)

(** X8: a record that [fetch_jira_issue_details] returns always has the same
    nine keys in the same order; its key is the key that was asked for, not
    one read from the answer; and its description is a string that is never
    empty. *)
Theorem fetch_jira_issue_details_record_shape `{Env}
  (issue_key : string) (w w1 : world) (details : dict) :
  fetch_jira_issue_details issue_key w = (Ok (Some details), w1) ->
  map fst details = ISSUE_RECORD_KEYS /\
  assoc "key" details = Some (PStr issue_key) /\
  (exists text, assoc "description" details = Some (PStr text) /\ text <> "") /\
  w1 = (w ++ [issue_request issue_key])%list.
Proof.
  intros Hrun.
  pose proof (fetch_jira_issue_details_world issue_key w) as Hw.
  rewrite Hrun in Hw. simpl in Hw.
  revert Hrun. unfold fetch_jira_issue_details, bind at 1.
  rewrite make_jira_request_run.
  destruct (truthy _); cbn [negb]; cbv beta iota; [|discriminate].
  destruct (request_result _) as [| | | | | |d]; try discriminate.
  io_unfold. cbn [py_get].
  destruct (dict_get d "fields" (PDict [])) as [| | | | | |fields]; try discriminate.
  cbn [py_get].
  pose proof (extract_description_not_empty (dict_get fields "description" PNone)) as Hne.
  destruct (extract_description_from_jira (dict_get fields "description" PNone))
    as [text|]; [|discriminate].
  intros [= <- _]. repeat split; [|exact Hw].
  exists text. split; [reflexivity | congruence].
Qed.

Lemma fetch_jira_issue_details_record_shape_witness :
  exists details,
    fst (fetch_jira_issue_details (H := example_env scenario_page_exists) "ABC-1" [])
    = Ok (Some details) /\
    map fst details = ISSUE_RECORD_KEYS /\
    assoc "key" details = Some (PStr "ABC-1").
Proof.
  eexists. split; [reflexivity|].
  destruct (fetch_jira_issue_details_record_shape (H := example_env scenario_page_exists)
              "ABC-1" [] _ _ eq_refl) as (Hkeys & Hkey & _).
  split; [exact Hkeys | exact Hkey].
Defined.

(** X9: an answer of the tracker that parses but is not an object (an array,
    a string, a number) is not downgraded to a failed fetch: reading its
    fields raises [AttributeError].  [get_jira_ticket] lets the fault through
    to its caller; [create_test_plan_from_jira] reports it as its error
    message; neither sends anything after the one read. *)
Theorem tracker_answer_not_an_object `{Env}
  (issue_key space_key title body : string) (w : world) (v : value) :
  request_result (remote w (issue_request issue_key)) = v ->
  truthy v = true -> is_dict v = false ->
  fetch_jira_issue_details issue_key w
  = (Raise (AttributeError v "get"), (w ++ [issue_request issue_key])%list) /\
  get_jira_ticket issue_key w
  = (Raise (AttributeError v "get"), (w ++ [issue_request issue_key])%list) /\
  (all_nonempty [issue_key; space_key; title; body] = true ->
   create_test_plan_from_jira issue_key space_key title body w
   = (Ok ("Error creating or updating test plan page: "
          ++ exn_text (AttributeError v "get")),
      (w ++ [issue_request issue_key])%list)).
Proof.
  intros Hv Ht Hd.
  assert (Hfetch : fetch_jira_issue_details issue_key w
                   = (Raise (AttributeError v "get"),
                      (w ++ [issue_request issue_key])%list)).
  { unfold fetch_jira_issue_details, bind at 1.
    rewrite make_jira_request_run. fold (issue_request issue_key).
    rewrite Hv, Ht. cbn [negb]. cbv beta iota.
    destruct v; try discriminate; reflexivity. }
  split; [exact Hfetch|]. split.
  - unfold get_jira_ticket, bind at 1. rewrite Hfetch. reflexivity.
  - intros Hargs. unfold create_test_plan_from_jira. rewrite Hargs.
    cbn [negb]. cbv beta iota.
    unfold try_except at 1. unfold bind at 1. rewrite Hfetch. reflexivity.
Qed.

Lemma tracker_answer_not_an_object_witness :
  get_jira_ticket (H := example_env scenario_array_answer) "ABC-1" []
  = (Raise (AttributeError (PList [PInt 1]) "get"),
     [issue_request (H := example_env scenario_array_answer) "ABC-1"]) /\
  create_test_plan_from_jira (H := example_env scenario_array_answer)
    "ABC-1" "SPACE" "Test Plan for ABC-1" "<p>plan</p>" []
  = (Ok "Error creating or updating test plan page: <exception>",
     [issue_request (H := example_env scenario_array_answer) "ABC-1"]).
Proof.
  destruct (tracker_answer_not_an_object (H := example_env scenario_array_answer)
              "ABC-1" "SPACE" "Test Plan for ABC-1" "<p>plan</p>" [] (PList [PInt 1])
              eq_refl eq_refl eq_refl) as (_ & Hget & Hplan).
  split; [exact Hget | exact (Hplan eq_refl)].
Defined.

(** X10: a sub-issue reference without a usable key (no key, a null key, an
    empty key) costs no request: its record is the marker "No subtask key
    found", and the report prints it under the name "Unknown". *)
Theorem fetch_subtask_details_without_key `{Env} (reference : dict) (w : world) :
  truthy (dict_get reference "key" PNone) = false ->
  fetch_subtask_details (PDict reference) w
  = (Ok [("error", PStr "No subtask key found")], w) /\
  format_subtask [("error", PStr "No subtask key found")]
  = Ok (nl ++ "  - Unknown: No subtask key found" ++ nl).
Proof.
  intros Hk. split; [|reflexivity].
  unfold fetch_subtask_details, bind at 1, lift at 1. cbn [py_get].
  rewrite Hk. reflexivity.
Qed.

Lemma fetch_subtask_details_without_key_witness :
  fetch_subtask_details (H := example_env []) (PDict [("id", PStr "10032"); ("key", PNone)]) []
  = (Ok [("error", PStr "No subtask key found")], []).
Proof.
  apply (proj1 (fetch_subtask_details_without_key (H := example_env [])
                  [("id", PStr "10032"); ("key", PNone)] [] eq_refl)).
Defined.

(** X11: when the read of the issue brings nothing usable back (a failed
    call, or a body that is null or an empty object), [get_jira_ticket]
    answers "Unable to fetch Jira ticket K." and has sent that one read
    only. *)
Theorem get_jira_ticket_issue_unavailable `{Env} (issue_key : string) (w : world) :
  truthy (request_result (remote w (issue_request issue_key))) = false ->
  get_jira_ticket issue_key w
  = (Ok ("Unable to fetch Jira ticket " ++ issue_key ++ "."),
     (w ++ [issue_request issue_key])%list).
Proof.
  intros Hf. unfold get_jira_ticket, bind at 1.
  rewrite (fetch_jira_issue_details_failed _ _ Hf). reflexivity.
Qed.

Lemma get_jira_ticket_issue_unavailable_witness :
  get_jira_ticket (H := example_env scenario_page_exists) "ABC-9" []
  = (Ok "Unable to fetch Jira ticket ABC-9.",
     [issue_request (H := example_env scenario_page_exists) "ABC-9"]).
Proof.
  apply (get_jira_ticket_issue_unavailable (H := example_env scenario_page_exists)).
  reflexivity.
Defined.

(** X12: for an issue whose answer is an object with fields and whose
    sub-issue list is missing or empty, [get_jira_ticket] sends the one read
    and returns the five header lines followed by the line "No child stories
    or subtasks found."; a missing summary reads "No summary", a missing
    status or reporter "Unknown". *)
Theorem get_jira_ticket_without_subtasks `{Env}
  (issue_key : string) (w : world) (d fields : dict) :
  request_result (remote w (issue_request issue_key)) = PDict d ->
  assoc "fields" d = Some (PDict fields) ->
  dict_get fields "subtasks" (PList []) = PList [] ->
  exists description,
    extract_description_from_jira (dict_get fields "description" PNone) = Ok description /\
    get_jira_ticket issue_key w
    = (Ok (nl ++ "Jira Ticket: " ++ issue_key ++ nl ++
           "Summary: " ++ py_str (dict_get fields "summary" (PStr "No summary")) ++ nl ++
           "Status: "
             ++ py_str (extract_jira_field_value (dict_get fields "status" PNone) "name")
             ++ nl ++
           "Reporter: "
             ++ py_str (extract_jira_field_value (dict_get fields "reporter" PNone)
                          "displayName")
             ++ nl ++
           "Description: " ++ description ++ nl ++
           nl ++ "No child stories or subtasks found." ++ nl),
       (w ++ [issue_request issue_key])%list).
Proof.
  intros Hres Hfields Hsub.
  destruct (extract_description_total (dict_get fields "description" PNone))
    as [description Hdesc].
  exists description. split; [exact Hdesc|].
  unfold get_jira_ticket, bind at 1.
  unfold fetch_jira_issue_details, bind at 1.
  rewrite make_jira_request_run. fold (issue_request issue_key). rewrite Hres.
  rewrite (assoc_some_nonempty _ _ _ Hfields). cbn [negb]. cbv beta iota.
  io_unfold. cbn [py_get]. rewrite !(dict_get_some _ _ _ _ Hfields). cbn [py_get].
  rewrite Hdesc, Hsub. cbn [dict_get assoc String.eqb Ascii.eqb Bool.eqb py_iter].
  cbn [subtask_loop]. unfold ret, format_jira_issue_output, format_issue_header.
  cbn [dict_getitem assoc String.eqb Ascii.eqb Bool.eqb rbind py_str].
  unfold NO_SUBTASKS. rewrite !str_app_assoc. reflexivity.
Qed.

Lemma get_jira_ticket_without_subtasks_witness :
  fst (get_jira_ticket (H := example_env scenario_page_exists) "ABC-1" [])
  = Ok (nl ++ "Jira Ticket: ABC-1" ++ nl ++
        "Summary: Login fails" ++ nl ++
        "Status: Open" ++ nl ++
        "Reporter: Ada" ++ nl ++
        "Description: No description available" ++ nl ++
        nl ++ "No child stories or subtasks found." ++ nl).
Proof.
  destruct (get_jira_ticket_without_subtasks (H := example_env scenario_page_exists)
              "ABC-1" []
              [("key", PStr "ABC-1");
               ("fields", PDict [("summary", PStr "Login fails");
                                 ("status", PDict [("name", PStr "Open")]);
                                 ("reporter", PDict [("displayName", PStr "Ada")]);
                                 ("subtasks", PList [])])]
              [("summary", PStr "Login fails");
               ("status", PDict [("name", PStr "Open")]);
               ("reporter", PDict [("displayName", PStr "Ada")]);
               ("subtasks", PList [])]
              eq_refl eq_refl eq_refl) as (description & Hdesc & Hrun).
  rewrite Hrun. injection Hdesc as <-. reflexivity.
Defined.

(* ====================================================================== *)
(** * Further properties of the page reconciler *)
(* ====================================================================== *)

(** X13: the lookup sends one GET to the content endpoint with the title,
    the space key and [expand=version] as query parameters.  When the answer
    lists results it returns the first of them, whatever follows it; when the
    answer is unusable, has no [results] or lists none, it returns [None]. *)
Theorem find_existing_first_result_wins `{Env} (space_key title : string) (w : world) :
  snd (find_existing_confluence_page space_key title w)
  = (w ++ [search_request space_key title])%list /\
  req_method (search_request space_key title) = GET /\
  req_url (search_request space_key title) = CONFLUENCE_BASE_URL ++ "/rest/api/content" /\
  req_params (search_request space_key title)
  = Some (PDict [("title", PStr title); ("spaceKey", PStr space_key);
                 ("expand", PStr "version")]) /\
  (forall page, search_hit (request_result (remote w (search_request space_key title))) page ->
                fst (find_existing_confluence_page space_key title w) = Ok page) /\
  (search_miss (request_result (remote w (search_request space_key title))) ->
   fst (find_existing_confluence_page space_key title w) = Ok PNone).
Proof.
  rewrite find_existing_confluence_page_run. repeat split.
  - intros page Hhit. apply first_search_result_hit. exact Hhit.
  - intros Hmiss. apply first_search_result_miss. exact Hmiss.
Qed.

Lemma find_existing_first_result_wins_witness :
  fst (find_existing_confluence_page
         (H := example_env
                 [(GET, wiki_content_url,
                   JsonBody (search_answer [found_page; PDict [("id", PStr "43")]]))])
         "SPACE" "Test Plan for ABC-1" [])
  = Ok found_page.
Proof.
  apply (proj1 (proj2 (proj2 (proj2 (proj2
           (find_existing_first_result_wins
              (H := example_env
                      [(GET, wiki_content_url,
                        JsonBody (search_answer [found_page; PDict [("id", PStr "43")]]))])
              "SPACE" "Test Plan for ABC-1" [])))))).
  exists [("results", PList [found_page; PDict [("id", PStr "43")]]); ("size", PInt 2)],
         [PDict [("id", PStr "43")]].
  split; reflexivity.
Defined.

Section ReconcilerFaults.
Context `{Env}.

(** The tool's answer when the reconciliation ends in a fault. *)
Lemma create_test_plan_reports_fault
  (issue_key space_key title body : string) (w w1 w2 : world) (details : dict) (e : exn) :
  all_nonempty [issue_key; space_key; title; body] = true ->
  fetch_jira_issue_details issue_key w = (Ok (Some details), w1) ->
  create_or_update space_key title body w1 = (Raise e, w2) ->
  create_test_plan_from_jira issue_key space_key title body w
  = (Ok ("Error creating or updating test plan page: " ++ exn_text e), w2).
Proof.
  intros Hargs Hfetch Hfault.
  rewrite (create_test_plan_validated _ _ _ _ _ _ _ Hargs Hfetch).
  unfold try_except. rewrite Hfault. reflexivity.
Qed.

End ReconcilerFaults.

(** X14: when the search answer parses but is not an object (an array, a
    string), the lookup raises instead of reporting "not found"; the tool
    then returns its error message and writes nothing: the log ends with the
    search. *)
Theorem search_answer_not_an_object `{Env}
  (issue_key space_key title body : string) (w w1 : world) (details : dict) (v : value) :
  all_nonempty [issue_key; space_key; title; body] = true ->
  fetch_jira_issue_details issue_key w = (Ok (Some details), w1) ->
  request_result (remote w1 (search_request space_key title)) = v ->
  truthy v = true -> is_dict v = false ->
  find_existing_confluence_page space_key title w1
  = (Raise (AttributeError v "get"), (w1 ++ [search_request space_key title])%list) /\
  create_test_plan_from_jira issue_key space_key title body w
  = (Ok ("Error creating or updating test plan page: "
         ++ exn_text (AttributeError v "get")),
     (w1 ++ [search_request space_key title])%list).
Proof.
  intros Hargs Hfetch Hv Ht Hd.
  assert (Hfind : find_existing_confluence_page space_key title w1
                  = (Raise (AttributeError v "get"),
                     (w1 ++ [search_request space_key title])%list)).
  { rewrite find_existing_confluence_page_run, Hv. unfold first_search_result.
    rewrite Ht. destruct v; try discriminate; reflexivity. }
  split; [exact Hfind|].
  apply (create_test_plan_reports_fault _ _ _ _ _ _ _ _ _ Hargs Hfetch).
  unfold create_or_update, bind at 1. rewrite Hfind. reflexivity.
Qed.

Lemma search_answer_not_an_object_witness :
  create_test_plan_from_jira (H := example_env scenario_search_array)
    "ABC-1" "SPACE" "Test Plan for ABC-1" "<p>plan</p>" []
  = (Ok "Error creating or updating test plan page: <exception>",
     [issue_request (H := example_env scenario_search_array) "ABC-1";
      search_request (H := example_env scenario_search_array) "SPACE" "Test Plan for ABC-1"]).
Proof.
  apply (proj2 (search_answer_not_an_object (H := example_env scenario_search_array)
                  "ABC-1" "SPACE" "Test Plan for ABC-1" "<p>plan</p>" []
                  [issue_request (H := example_env scenario_search_array) "ABC-1"]
                  (match fst (fetch_jira_issue_details
                                (H := example_env scenario_search_array) "ABC-1" []) with
                   | Ok (Some d) => d
                   | _ => []
                   end)
                  (PList [PInt 1]) eq_refl eq_refl eq_refl eq_refl eq_refl)).
Defined.

(** X15: a page that is found but cannot be addressed is never written to.
    When the first hit is an object without [id] the tool reports the
    [KeyError]; when its version number is a value that cannot be added to
    (a string, null, an object) the tool reports the [TypeError]; in both
    cases the log ends with the search: no PUT and no POST is sent. *)
Theorem found_page_unusable_sends_no_write `{Env}
  (issue_key space_key title body : string) (w w1 : world) (details : dict)
  (page : value) (pd : dict) :
  all_nonempty [issue_key; space_key; title; body] = true ->
  fetch_jira_issue_details issue_key w = (Ok (Some details), w1) ->
  search_hit (request_result (remote w1 (search_request space_key title))) page ->
  page = PDict pd -> pd <> [] ->
  (assoc "id" pd = None ->
   create_test_plan_from_jira issue_key space_key title body w
   = (Ok ("Error creating or updating test plan page: " ++ exn_text (KeyError (PStr "id"))),
      (w1 ++ [search_request space_key title])%list)) /\
  (forall page_id vd number e,
      assoc "id" pd = Some page_id ->
      assoc "version" pd = Some (PDict vd) ->
      assoc "number" vd = Some number ->
      py_add_one number = Raise e ->
      e = TypeError number /\
      create_test_plan_from_jira issue_key space_key title body w
      = (Ok ("Error creating or updating test plan page: " ++ exn_text e),
         (w1 ++ [search_request space_key title])%list)).
Proof.
  intros Hargs Hfetch Hhit -> Hne.
  apply first_search_result_hit in Hhit.
  assert (Htruthy : truthy (PDict pd) = true) by (destruct pd; [congruence | reflexivity]).
  split.
  - intros Hid.
    apply (create_test_plan_reports_fault _ _ _ _ _ _ _ _ _ Hargs Hfetch).
    unfold create_or_update, bind at 1.
    rewrite find_existing_confluence_page_run, Hhit. cbv beta iota. rewrite Htruthy.
    unfold bind at 1, lift at 1. cbn [py_getitem]. unfold dict_getitem. rewrite Hid.
    reflexivity.
  - intros page_id vd number e Hid Hver Hnum Hadd.
    assert (He : e = TypeError number)
      by (destruct number; simpl in Hadd; congruence).
    split; [exact He|].
    apply (create_test_plan_reports_fault _ _ _ _ _ _ _ _ _ Hargs Hfetch).
    unfold create_or_update, bind at 1.
    rewrite find_existing_confluence_page_run, Hhit. cbv beta iota. rewrite Htruthy.
    io_unfold. cbn [py_getitem]. unfold dict_getitem. rewrite Hid, Hver.
    cbn [py_getitem]. unfold dict_getitem. rewrite Hnum.
    unfold update_existing_confluence_page. io_unfold. rewrite Hadd. reflexivity.
Qed.

Lemma found_page_unusable_sends_no_write_witness :
  create_test_plan_from_jira (H := example_env scenario_version_string)
    "ABC-1" "SPACE" "Test Plan for ABC-1" "<p>plan</p>" []
  = (Ok "Error creating or updating test plan page: <exception>",
     [issue_request (H := example_env scenario_version_string) "ABC-1";
      search_request (H := example_env scenario_version_string)
        "SPACE" "Test Plan for ABC-1"]).
Proof.
  destruct (found_page_unusable_sends_no_write (H := example_env scenario_version_string)
              "ABC-1" "SPACE" "Test Plan for ABC-1" "<p>plan</p>" []
              [issue_request (H := example_env scenario_version_string) "ABC-1"]
              (match fst (fetch_jira_issue_details
                            (H := example_env scenario_version_string) "ABC-1" []) with
               | Ok (Some d) => d
               | _ => []
               end)
              (PDict [("id", PStr "42"); ("version", PDict [("number", PStr "3")])])
              [("id", PStr "42"); ("version", PDict [("number", PStr "3")])]
              eq_refl eq_refl) as [_ Hversion].
  - exists [("results", PList [PDict [("id", PStr "42");
                                      ("version", PDict [("number", PStr "3")])]]);
            ("size", PInt 1)], [].
    split; reflexivity.
  - reflexivity.
  - discriminate.
  - apply (Hversion (PStr "42") [("number", PStr "3")] (PStr "3") (TypeError (PStr "3"))
             eq_refl eq_refl eq_refl eq_refl).
Defined.

(** X16: when the update of a found page brings nothing usable back, the
    tool answers "Failed to update existing test plan page" and stops: the
    log ends with the PUT, so a refused update is never followed by the
    creation of a second page. *)
Theorem failed_update_is_not_retried `{Env}
  (issue_key space_key title body : string) (w w1 : world) (details : dict)
  (page page_id : value) (V : Z) :
  all_nonempty [issue_key; space_key; title; body] = true ->
  fetch_jira_issue_details issue_key w = (Ok (Some details), w1) ->
  search_hit (request_result (remote w1 (search_request space_key title))) page ->
  page_at_version page page_id V ->
  truthy (request_result
            (remote (w1 ++ [search_request space_key title])%list
                    (update_request page_id space_key title body (PInt (V + 1))))) = false ->
  create_test_plan_from_jira issue_key space_key title body w
  = (Ok "Failed to update existing test plan page",
     (w1 ++ [search_request space_key title;
             update_request page_id space_key title body (PInt (V + 1))])%list).
Proof.
  intros Hargs Hfetch Hhit Hver Hfail. apply first_search_result_hit in Hhit.
  rewrite (create_test_plan_validated _ _ _ _ _ _ _ Hargs Hfetch).
  unfold try_except.
  rewrite (create_or_update_updates _ _ _ _ _ _ _ Hhit Hver).
  unfold render_write. rewrite Hfail. reflexivity.
Qed.

Lemma failed_update_is_not_retried_witness :
  create_test_plan_from_jira (H := example_env scenario_update_refused)
    "ABC-1" "SPACE" "Test Plan for ABC-1" "<p>plan</p>" []
  = (Ok "Failed to update existing test plan page",
     [issue_request (H := example_env scenario_update_refused) "ABC-1";
      search_request (H := example_env scenario_update_refused) "SPACE" "Test Plan for ABC-1";
      update_request (H := example_env scenario_update_refused) (PStr "42")
        "SPACE" "Test Plan for ABC-1" "<p>plan</p>" (PInt 4)]).
Proof.
  apply (failed_update_is_not_retried (H := example_env scenario_update_refused)
           "ABC-1" "SPACE" "Test Plan for ABC-1" "<p>plan</p>" []
           [issue_request (H := example_env scenario_update_refused) "ABC-1"]
           (match fst (fetch_jira_issue_details
                         (H := example_env scenario_update_refused) "ABC-1" []) with
            | Ok (Some d) => d
            | _ => []
            end)
           found_page (PStr "42") 3%Z eq_refl eq_refl).
  - exists [("results", PList [found_page]); ("size", PInt 1)], []. split; reflexivity.
  - exists [("id", PStr "42"); ("version", PDict [("number", PInt 3)])],
           [("number", PInt 3)].
    repeat split; reflexivity.
  - reflexivity.
Defined.

(** X17: with its three arguments present, [create_confluence_page] sends
    exactly one request, the POST of the new page; it never searches and
    never updates.  An answer that brings nothing usable back gives "Failed
    to create page: API request failed"; an answer object gives the success
    message with the two link fragments one after the other, which is an
    empty URL when the answer has no [_links]; an answer that parses to
    something that is not an object gives the error message of the handler. *)
Theorem create_confluence_page_outcomes `{Env}
  (space_key title body : string) (w : world) :
  all_nonempty [space_key; title; body] = true ->
  snd (create_confluence_page space_key title body w)
  = (w ++ [create_request space_key title body])%list /\
  (truthy (request_result (remote w (create_request space_key title body))) = false ->
   fst (create_confluence_page space_key title body w)
   = Ok "Failed to create page: API request failed") /\
  (forall response links,
      request_result (remote w (create_request space_key title body)) = PDict response ->
      assoc "_links" response = Some (PDict links) ->
      fst (create_confluence_page space_key title body w)
      = Ok ("Page created successfully: "
            ++ py_str (dict_get links "base" (PStr ""))
            ++ py_str (dict_get links "webui" (PStr "")))) /\
  (forall response,
      request_result (remote w (create_request space_key title body)) = PDict response ->
      response <> [] -> assoc "_links" response = None ->
      fst (create_confluence_page space_key title body w)
      = Ok "Page created successfully: ") /\
  (forall v,
      request_result (remote w (create_request space_key title body)) = v ->
      truthy v = true -> is_dict v = false ->
      fst (create_confluence_page space_key title body w)
      = Ok ("Error creating page: " ++ exn_text (AttributeError v "get"))).
Proof.
  intros Hargs.
  assert (Hrun : create_confluence_page space_key title body w
                 = try_except
                     (fun w' =>
                        match render_write "Page created successfully: "
                                "Failed to create page: API request failed"
                                (request_result
                                   (remote w (create_request space_key title body))) with
                        | r => (r, w')
                        end)
                     (fun e => ret ("Error creating page: " ++ exn_text e))
                     (w ++ [create_request space_key title body])%list).
  { unfold create_confluence_page. rewrite Hargs. cbn [negb]. cbv beta iota.
    unfold try_except, create_new_confluence_page, bind at 1.
    rewrite make_confluence_request_POST. fold (create_request space_key title body).
    unfold render_write.
    destruct (truthy (request_result _)); [|reflexivity].
    io_unfold. destruct (extract_page_url _); reflexivity. }
  rewrite Hrun. unfold try_except, render_write, ret.
  split; [|split; [|split; [|split]]].
  - destruct (truthy (request_result _)); [|reflexivity].
    destruct (extract_page_url _); reflexivity.
  - intros ->. reflexivity.
  - intros response links -> Hlinks.
    rewrite (assoc_some_nonempty _ _ _ Hlinks), (extract_page_url_links _ _ Hlinks).
    reflexivity.
  - intros response -> Hne Hnone.
    assert (Ht : truthy (PDict response) = true)
      by (destruct response; [congruence | reflexivity]).
    assert (Hl : dict_get response "_links" (PDict []) = PDict [])
      by (unfold dict_get; rewrite Hnone; reflexivity).
    rewrite Ht. unfold extract_page_url. cbn [py_get rbind]. rewrite !Hl. reflexivity.
  - intros v Hv Ht Hd. rewrite Hv, Ht.
    destruct v; try discriminate; reflexivity.
Qed.

Lemma create_confluence_page_outcomes_witness :
  create_confluence_page (H := example_env scenario_created_no_links)
    "SPACE" "Release notes" "<p>notes</p>" []
  = (Ok "Page created successfully: ",
     [create_request (H := example_env scenario_created_no_links)
        "SPACE" "Release notes" "<p>notes</p>"]).
Proof.
  destruct (create_confluence_page_outcomes (H := example_env scenario_created_no_links)
              "SPACE" "Release notes" "<p>notes</p>" [] eq_refl)
    as (Hlog & _ & _ & Hnolinks & _).
  rewrite (surjective_pairing (create_confluence_page _ _ _ _)), Hlog.
  rewrite (Hnolinks [("id", PStr "77")] eq_refl); [reflexivity | discriminate | reflexivity].
Defined.

(* ====================================================================== *)
(** * Sub-issue lists the aggregator cannot read *)
(* ====================================================================== *)

Section SubtaskFaults.
Context `{Env}.


End SubtaskFaults.



(* ====================================================================== *)
(** * Faults and gaps in a document *)
(* ====================================================================== *)

Lemma forallb_is_str_snoc (acc : list value) (v : value) :
  forallb is_str acc = false \/ is_str v = false ->
  forallb is_str (acc ++ [v]) = false.
Proof.
  intros [Hacc | Hv]; rewrite forallb_app; simpl.
  - rewrite Hacc. reflexivity.
  - rewrite Hv. apply andb_false_r.
Qed.

Lemma all_strs_spoiled (parts : list value) :
  forallb is_str parts = false -> exists v, all_strs parts = Raise (TypeError v).
Proof.
  induction parts as [|p parts IH]; simpl; [discriminate|].
  destruct p; simpl; try (intros _; eexists; reflexivity).
  intros Hrest. destruct (IH Hrest) as [v ->]. eexists. reflexivity.
Qed.

(** Once something that is not a string has been collected, the traversal
    cannot end well. *)
Lemma paragraph_loop_poison (items : list value) :
  forall acc, forallb is_str acc = false -> traversal_spoiled (paragraph_loop items acc).
Proof.
  induction items as [|it items IH]; intros acc Hacc; simpl; [exact Hacc|].
  destruct (py_get it "type" PNone) as [ty|]; simpl; [|exact I].
  destruct (py_eq_str ty "text"); [|apply IH; exact Hacc].
  destruct (py_get it "text" (PStr "")) as [tx|]; simpl; [|exact I].
  destruct (truthy tx); apply IH; [|exact Hacc].
  apply forallb_is_str_snoc. left. exact Hacc.
Qed.

Lemma paragraph_loop_faults (items : list value) :
  existsb inline_faults items = true ->
  forall acc, traversal_spoiled (paragraph_loop items acc).
Proof.
  induction items as [|it items IH]; simpl; [discriminate|].
  intros Hex acc. destruct (inline_faults it) eqn:Hit.
  - destruct it as [| | | | | |d]; try exact I.
    simpl in Hit. apply andb_prop in Hit. destruct Hit as [Hit Hstr].
    apply andb_prop in Hit. destruct Hit as [Hty Htx].
    cbn [py_get rbind]. rewrite Hty. cbn [py_get rbind]. rewrite Htx.
    apply paragraph_loop_poison. apply forallb_is_str_snoc. right.
    apply negb_true_iff. exact Hstr.
  - simpl in Hex.
    destruct (py_get it "type" PNone) as [ty|]; simpl; [|exact I].
    destruct (py_eq_str ty "text"); [|apply IH; exact Hex].
    destruct (py_get it "text" (PStr "")) as [tx|]; simpl; [|exact I].
    destruct (truthy tx); apply IH; exact Hex.
Qed.

Lemma content_loop_poison (items : list value) :
  forall acc, forallb is_str acc = false -> traversal_spoiled (content_loop items acc).
Proof.
  induction items as [|it items IH]; intros acc Hacc; simpl; [exact Hacc|].
  destruct (py_get it "type" PNone) as [ty|]; simpl; [|exact I].
  destruct (py_eq_str ty "paragraph"); [|apply IH; exact Hacc].
  destruct (py_get it "content" (PList [])) as [pc|]; simpl; [|exact I].
  destruct (py_iter pc) as [inner|]; simpl; [|exact I].
  pose proof (paragraph_loop_poison inner acc Hacc) as Hinner.
  destruct (paragraph_loop inner acc) as [acc'|]; simpl; [|exact I].
  apply IH. exact Hinner.
Qed.

Lemma content_loop_faults (items : list value) :
  existsb block_faults items = true ->
  forall acc, traversal_spoiled (content_loop items acc).
Proof.
  induction items as [|it items IH]; simpl; [discriminate|].
  intros Hex acc. destruct (block_faults it) eqn:Hit.
  - destruct it as [| | | | | |d]; try exact I.
    simpl in Hit. apply andb_prop in Hit. destruct Hit as [Hty Hinner].
    cbn [py_get rbind]. rewrite Hty. cbn [py_get rbind].
    destruct (py_iter (dict_get d "content" (PList []))) as [inner|]; simpl; [|exact I].
    pose proof (paragraph_loop_faults inner Hinner acc) as Hspoiled.
    destruct (paragraph_loop inner acc) as [acc'|]; simpl; [|exact I].
    apply content_loop_poison. exact Hspoiled.
  - simpl in Hex.
    destruct (py_get it "type" PNone) as [ty|]; simpl; [|exact I].
    destruct (py_eq_str ty "paragraph"); [|apply IH; exact Hex].
    destruct (py_get it "content" (PList [])) as [pc|]; simpl; [|exact I].
    destruct (py_iter pc) as [inner|]; simpl; [|exact I].
    destruct (paragraph_loop inner acc) as [acc'|]; simpl; [|exact I].
    apply IH. exact Hex.
Qed.

Lemma extract_description_spoiled (d : dict) (blocks : list value) :
  assoc "content" d = Some (PList blocks) ->
  traversal_spoiled (content_loop blocks []) ->
  extract_description_from_jira (PDict d) = Ok NO_DESCRIPTION.
Proof.
  intros Hc Hspoiled. unfold extract_description_from_jira.
  rewrite (assoc_some_nonempty _ _ _ Hc). cbn [negb].
  unfold extract_description_try. cbn [py_get rbind].
  rewrite !(dict_get_some _ _ _ _ Hc).
  destruct blocks as [|b blocks]; [reflexivity|].
  cbn [truthy negb]. unfold collect_text_parts. cbn [py_iter rbind].
  destruct (content_loop (b :: blocks) []) as [parts|e] eqn:Hloop.
  - cbn [rbind]. simpl in Hspoiled.
    destruct parts as [|p parts]; [discriminate|].
    destruct (all_strs_spoiled _ Hspoiled) as [v Hv].
    unfold py_join. rewrite Hv. reflexivity.
  - cbn [rbind]. rewrite (content_loop_caught _ _ _ Hloop). reflexivity.
Qed.

Lemma paragraph_loop_skipped (items : list value) :
  forallb inline_is_skipped items = true ->
  forall acc, paragraph_loop items acc = Ok acc.
Proof.
  induction items as [|it items IH]; simpl; [reflexivity|].
  intros Hall acc. apply andb_prop in Hall. destruct Hall as [Hit Hrest].
  destruct it as [| | | | | |d]; try discriminate.
  simpl in Hit. cbn [py_get rbind].
  destruct (py_eq_str (dict_get d "type" PNone) "text"); [|apply IH; exact Hrest].
  cbn [py_get rbind]. simpl in Hit. apply negb_true_iff in Hit. rewrite Hit.
  apply IH. exact Hrest.
Qed.

Lemma content_loop_passes_over (pre post : list value) (block : value) :
  block_is_skipped block = true ->
  forall acc,
    content_loop (pre ++ block :: post) acc = content_loop (pre ++ post) acc.
Proof.
  intros Hskip acc. rewrite !content_loop_app.
  destruct (content_loop pre acc) as [acc'|]; [|reflexivity]. cbn [rbind].
  destruct block as [| | | | | |d]; try discriminate.
  simpl in Hskip. cbn [content_loop py_get rbind].
  destruct (py_eq_str (dict_get d "type" PNone) "paragraph"); [|reflexivity].
  simpl in Hskip. cbn [py_get rbind].
  destruct (py_iter (dict_get d "content" (PList []))) as [inner|]; [|discriminate].
  cbn [rbind]. rewrite (paragraph_loop_skipped inner Hskip). reflexivity.
Qed.

(** C3, as the code has it: the text extractor never raises, whatever value
    it is handed, and whenever its traversal runs into a fault it returns the
    sentinel.  The sentinel is what it returns for every document one of
    whose blocks is not an object, or is a paragraph whose content cannot be
    iterated (a number, a boolean, null) or holds an inline node that is not
    an object or a text node whose text is a non-empty value that is not a
    string.  A block that only lacks something is passed over like a block
    of another type: a block without type, a paragraph without content or
    with an empty object as content, a paragraph whose inline nodes are all
    objects that are not text nodes or carry no text.  Taking such a block
    out of the document does not change the result, so it does not by itself
    lead to the sentinel. *)
Theorem extract_description_never_raises (doc : value) :
  (exists s, extract_description_from_jira doc = Ok s) /\
  (forall e, extract_description_try doc = Raise e ->
             extract_description_from_jira doc = Ok NO_DESCRIPTION) /\
  (forall d blocks,
      doc = PDict d -> assoc "content" d = Some (PList blocks) ->
      existsb block_faults blocks = true ->
      extract_description_from_jira doc = Ok "No description available") /\
  (forall d d' pre block post,
      doc = PDict d ->
      assoc "content" d = Some (PList (pre ++ block :: post)) ->
      assoc "content" d' = Some (PList (pre ++ post)) ->
      block_is_skipped block = true ->
      extract_description_from_jira doc = extract_description_from_jira (PDict d')).
Proof.
  split; [apply extract_description_total|].
  split; [apply extract_description_degrades|].
  split.
  - intros d blocks -> Hc Hex.
    apply (extract_description_spoiled d blocks Hc).
    apply content_loop_faults. exact Hex.
  - intros d d' pre block post -> Hc Hc' Hskip.
    unfold extract_description_from_jira.
    rewrite (assoc_some_nonempty _ _ _ Hc), (assoc_some_nonempty _ _ _ Hc').
    cbn [negb]. unfold extract_description_try. cbn [py_get rbind].
    rewrite !(dict_get_some _ _ _ _ Hc), !(dict_get_some _ _ _ _ Hc').
    assert (Hfull : truthy (PList (pre ++ block :: post)) = true)
      by (destruct pre; reflexivity).
    rewrite Hfull. cbn [negb]. unfold collect_text_parts. cbn [py_iter rbind].
    rewrite (content_loop_passes_over _ _ _ Hskip).
    destruct (pre ++ post)%list as [|b rest] eqn:Hrest; reflexivity.
Qed.

(** Witness for C3: a paragraph whose content is the number 7; a paragraph
    one of whose inline nodes is the number 7; a text node whose text is the
    number 42; and a text node without text, which is passed over. *)
Lemma extract_description_never_raises_witness :
  extract_description_from_jira
    (document [paragraph [text_node "ok"];
               PDict [("type", PStr "paragraph"); ("content", PInt 7)]])
  = Ok "No description available" /\
  extract_description_from_jira
    (document [paragraph [text_node "ok"; PInt 7]])
  = Ok "No description available" /\
  extract_description_from_jira
    (document [paragraph [text_node "ok"; PDict [("type", PStr "text"); ("text", PInt 42)]]])
  = Ok "No description available" /\
  extract_description_from_jira
    (document [paragraph [PDict [("type", PStr "text")]]; paragraph [text_node "hi"]])
  = Ok "hi".
Proof.
  split; [|split; [|split]].
  - eapply (proj1 (proj2 (proj2 (extract_description_never_raises _)))); reflexivity.
  - eapply (proj1 (proj2 (proj2 (extract_description_never_raises _)))); reflexivity.
  - eapply (proj1 (proj2 (proj2 (extract_description_never_raises _)))); reflexivity.
  - unfold document.
    rewrite (proj2 (proj2 (proj2 (extract_description_never_raises _)))
               [("type", PStr "doc"); ("version", PInt 1);
                ("content", PList [paragraph [PDict [("type", PStr "text")]];
                                   paragraph [text_node "hi"]])]
               [("content", PList [paragraph [text_node "hi"]])]
               [] (paragraph [PDict [("type", PStr "text")]]) [paragraph [text_node "hi"]]
               eq_refl eq_refl eq_refl eq_refl).
    reflexivity.
Defined.
